(** * NEO tracker scraper: block reconciliation and asset/contract extraction

    A shallow embedding of the two source files of the scrape package:
    - the block updater ([BlockUpdater.save], [BlockUpdater.revert]);
    - the asset and contract extraction ([getAsset], [checkIsNEP5],
      [getContractAndAsset], [getContracts],
      [getAssetsAndContractsForClient]).

    Promises are modelled by an error monad; the members of a
    [Promise.all] are run in array order (they act on disjoint state, so
    the order only decides which error is reported when several fail).
    The tracing monitor is dropped. *)

From Stdlib Require Import ZArith Lia Ascii String DecimalString.
From stdpp Require Import gmap strings list.

Local Open Scope Z_scope.

(** ** Errors and the promise monad *)

(** What a rejected promise carries.  [UniqueViolation] is the storage
    layer's duplicate-key signal, [NotFoundError] what [throwIfNotFound]
    raises, [OtherError] stands for every other failure (storage, client or
    sub-updater), with its message. *)
Inductive Error : Type :=
| UniqueViolation
| NotFoundError
| OtherError (msg : string).

Inductive result (A : Type) : Type :=
| Ok (a : A)
| Err (e : Error).

Arguments Ok {A} a.
Arguments Err {A} e.

#[global] Instance result_ret : MRet result := fun A a => Ok a.

#[global] Instance result_bind : MBind result := fun A B k m =>
  match m with
  | Ok a => k a
  | Err e => Err e
  end.

(** [promise.catch(handler)]. *)
Definition catch {A : Type} (m : result A) (handler : Error -> result A) : result A :=
  match m with
  | Ok a => Ok a
  | Err e => handler e
  end.

(** [isUniqueError] of the database package: recognises the duplicate-key
    signal among the storage errors. *)
Definition isUniqueError (e : Error) : bool :=
  match e with
  | UniqueViolation => true
  | _ => false
  end.

(** ** Decimal numbers (bignumber.js)

    A [BigNumber] is an exact decimal: [coef * 10^(-scale)].  [plus] is
    exact; [toFixed8] is [toFixed(8)] under the library's default rounding
    mode (half away from zero) and yields the stored column value, a decimal
    string with exactly eight fractional digits, represented here by its
    count of units of 10^-8. *)
Module BigNumber.

Record t : Type := mk { coef : Z; scale : nat }.

Definition ZERO : t := mk 0 0.

Definition plus (a b : t) : t :=
  let s := Nat.max (scale a) (scale b) in
  mk (coef a * 10 ^ Z.of_nat (s - scale a) + coef b * 10 ^ Z.of_nat (s - scale b)) s.

(** Nearest integer to [n / d] for [d > 0], ties away from zero. *)
Definition round_half_up (n d : Z) : Z :=
  Z.sgn n * ((2 * Z.abs n + d) / (2 * d)).

Definition toFixed8 (a : t) : Z :=
  round_half_up (coef a * 10 ^ 8) (10 ^ Z.of_nat (scale a)).

(** [new BigNumber(s)] for a stored eight-digit decimal string. *)
Definition of_fixed8 (units : Z) : t := mk units 8.

(** Two decimals denote the same number. *)
Definition eqv (a b : t) : Prop :=
  coef a * 10 ^ Z.of_nat (scale b) = coef b * 10 ^ Z.of_nat (scale a).

(** The value has at most eight fractional digits. *)
Definition fits8 (a : t) : Prop :=
  (10 ^ Z.of_nat (scale a) | coef a * 10 ^ 8).

End BigNumber.

(** ** Chain data (the client's types) *)

Module Asset.
Record t : Type := mk {
  type : string;
  name : string;
  amount : BigNumber.t;
  precision : Z;
  owner : string;
  admin : string
}.
End Asset.

Module Contract.
Record t : Type := mk {
  hash : string;
  script : string;
  parameters : list string;
  returnType : string;
  storage : bool;
  name : string;
  codeVersion : string;
  author : string;
  email : string;
  description : string
}.
End Contract.

Module InvocationData.
Record t : Type := mk {
  asset : option Asset.t;
  contracts : list Contract.t
}.
End InvocationData.

(** The transaction kinds the scraper discriminates on ([transaction.type]). *)
Inductive TransactionBody : Type :=
| RegisterTransaction (asset : Asset.t)
| InvocationTransaction (invocationData : InvocationData.t)
| PublishTransaction (contract : Contract.t)
| OtherTransaction (type : string).

Module Tx.
Record t : Type := mk {
  txid : string;
  systemFee : BigNumber.t;
  networkFee : BigNumber.t;
  globalIndex : BigNumber.t;
  body : TransactionBody
}.
End Tx.

Module Block.
Record t : Type := mk {
  index : Z;
  hash : string;
  previousBlockHash : string;
  size : Z;
  version : Z;
  merkleRoot : string;
  time : Z;
  nonce : string;
  nextConsensus : string;
  invocation : string;
  verification : string;
  transactions : list Tx.t
}.
End Block.

(** ** Projection rows *)

Module BlockModel.
Record t : Type := mk {
  id : Z;
  hash : string;
  previous_block_id : option Z;
  previous_block_hash : option string;
  validator_address_id : option string;
  size : Z;
  version : Z;
  merkle_root : string;
  time : Z;
  nonce : string;
  next_validator_address_id : string;
  invocation_script : string;
  verification_script : string;
  transaction_count : Z;
  system_fee : Z;
  network_fee : Z;
  aggregated_system_fee : Z
}.
End BlockModel.

(** ** The client and the context *)

(** A bound token contract: the outcome of each read-only call. *)
Module ReadSmartContract.
Record t : Type := mk {
  name : result string;
  symbol : result string;
  decimals : result BigNumber.t;
  totalSupply : result BigNumber.t
}.
End ReadSmartContract.

(** The token-interface descriptor built by [abi.NEP5]. *)
Inductive ABI : Type := NEP5_ABI (hash : string).

Module Client.
Record t : Type := mk {
  getBlock : Z -> result Block.t;
  abi_NEP5 : string -> result ABI;
  smartContract : string -> ABI -> ReadSmartContract.t
}.
End Client.

(** [context.systemFee]: the ledger index -> aggregated fee, kept by a
    collaborator over its own state [E]. *)
Module SystemFee.
Record t (E : Type) : Type := mk {
  save : Z -> Z -> E -> result E;
  revert : Z -> E -> result E
}.
Arguments mk {E}.
Arguments save {E}.
Arguments revert {E}.
End SystemFee.

(** [context.db]: the storage handle.  Besides the duplicate-key signal,
    which the block table below decides, the engine may reject an insert for
    reasons of its own; [insert_fault k] is then the message. *)
Module Db.
Record t : Type := mk {
  insert_fault : Z -> option string
}.
End Db.

Module Context.
Record t (E : Type) : Type := mk {
  db : Db.t;
  client : Client.t;
  systemFee : SystemFee.t E;
  currentHeight : Z;
  prevBlock : option BlockModel.t;
  nep5Contracts : gmap string ReadSmartContract.t;
  blacklistNEP5Hashes : gset string
}.
Arguments mk {E}.
Arguments db {E}.
Arguments client {E}.
Arguments systemFee {E}.
Arguments currentHeight {E}.
Arguments prevBlock {E}.
Arguments nep5Contracts {E}.
Arguments blacklistNEP5Hashes {E}.

(** [{ ...context, prevBlock, currentHeight }]. *)
Definition with_tip {E} (context : t E) (pb : option BlockModel.t) (h : Z) : t E :=
  mk (db context) (client context) (systemFee context) h pb
     (nep5Contracts context) (blacklistNEP5Hashes context).

(** [{ ...context, nep5Contracts }]. *)
Definition with_nep5Contracts {E} (context : t E)
    (cs : gmap string ReadSmartContract.t) : t E :=
  mk (db context) (client context) (systemFee context) (currentHeight context)
     (prevBlock context) cs (blacklistNEP5Hashes context).
End Context.

(** The address row the block updater hands to the address updater. *)
Module AddressModel.
Record t : Type := mk {
  id : string;
  transaction_id : option string;
  transaction_hash : option string;
  block_id : Z;
  block_time : Z;
  transaction_count : string;
  transfer_count : string;
  aggregate_block_id : Z
}.
End AddressModel.

(** [BlockUpdaters]: the four sub-updaters injected through the
    constructor, each with its [save] and [revert], acting on the
    collaborators' state.  The transaction updater's [save] is the one whose
    resolved value (a context) the block updater keeps. *)
Module BlockUpdaters.
Record t (E : Type) : Type := mk {
  address_save : Context.t E -> list AddressModel.t -> E -> result E;
  address_revert : Context.t E -> list string -> Z -> E -> result E;
  processedIndex_save : Context.t E -> Z -> E -> result E;
  processedIndex_revert : Context.t E -> Z -> E -> result E;
  prevBlock_save : Context.t E -> Block.t -> option BlockModel.t -> E -> result E;
  prevBlock_revert : Context.t E -> option BlockModel.t -> E -> result E;
  transactions_save : Context.t E -> Block.t -> E -> result (Context.t E * E);
  transactions_revert : Context.t E -> BlockModel.t -> E -> result E
}.
Arguments mk {E}.
Arguments address_save {E}.
Arguments address_revert {E}.
Arguments processedIndex_save {E}.
Arguments processedIndex_revert {E}.
Arguments prevBlock_save {E}.
Arguments prevBlock_revert {E}.
Arguments transactions_save {E}.
Arguments transactions_revert {E}.
End BlockUpdaters.

(** The persistent state: the block table (primary key: the block index)
    and the collaborators' state. *)
Module World.
Record t (E : Type) : Type := mk {
  blocks : gmap Z BlockModel.t;
  ext : E
}.
Arguments mk {E}.
Arguments blocks {E}.
Arguments ext {E}.
End World.

(** ** The block updater *)

Section BlockUpdater.

Context {E : Type}.

(** [this.updaters]. *)
Variable updaters : BlockUpdaters.t E.

(** Modelled from the spec: [getCurrentHeight] of [./utils], which is not
    among the sources.  The spec's "current projection height (integer, -1
    if empty)" kept in the context. *)
Definition getCurrentHeight (context : Context.t E) : Z :=
  Context.currentHeight context.

(** Modelled from the spec: [getPreviousBlockModel] of [./utils], which is
    not among the sources.  For a block of index [index] it is "the
    previously committed block", the committed row at [index - 1] whose hash
    [save] compares with the block's previous hash and whose aggregate it
    extends; absent when no such row is committed. *)
Definition getPreviousBlockModel (w : World.t E) (context : Context.t E)
    (index : Z) : option BlockModel.t :=
  World.blocks w !! (index - 1).

(** [transactions.reduce((fee, tx) => fee.plus(new BigNumber(f tx)), ZERO)]. *)
Definition sum_fees (f : Tx.t -> BigNumber.t) (txs : list Tx.t) : BigNumber.t :=
  fold_left (fun fee transaction => BigNumber.plus fee (f transaction)) txs BigNumber.ZERO.

(** The row handed to [insertAndReturn]. *)
Definition block_row (block : Block.t) (prevBlockModel : option BlockModel.t)
    (systemFee aggregatedSystemFee : BigNumber.t) : BlockModel.t :=
  {| BlockModel.id := Block.index block;
     BlockModel.hash := Block.hash block;
     BlockModel.previous_block_id := BlockModel.id <$> prevBlockModel;
     BlockModel.previous_block_hash := BlockModel.hash <$> prevBlockModel;
     BlockModel.validator_address_id :=
       BlockModel.next_validator_address_id <$> prevBlockModel;
     BlockModel.size := Block.size block;
     BlockModel.version := Block.version block;
     BlockModel.merkle_root := Block.merkleRoot block;
     BlockModel.time := Block.time block;
     BlockModel.nonce := Block.nonce block;
     BlockModel.next_validator_address_id := Block.nextConsensus block;
     BlockModel.invocation_script := Block.invocation block;
     BlockModel.verification_script := Block.verification block;
     BlockModel.transaction_count := Z.of_nat (length (Block.transactions block));
     BlockModel.system_fee := BigNumber.toFixed8 systemFee;
     BlockModel.network_fee :=
       BigNumber.toFixed8 (sum_fees Tx.networkFee (Block.transactions block));
     BlockModel.aggregated_system_fee := BigNumber.toFixed8 aggregatedSystemFee |}.

(** [BlockModel.insertAndReturn]: the primary key rejects a second row of
    the same index. *)
Definition insertAndReturn (context : Context.t E) (blocks : gmap Z BlockModel.t)
    (row : BlockModel.t) : result (gmap Z BlockModel.t * BlockModel.t) :=
  match Db.insert_fault (Context.db context) (BlockModel.id row) with
  | Some msg => Err (OtherError msg)
  | None =>
      match blocks !! BlockModel.id row with
      | Some _ => Err UniqueViolation
      | None => Ok (<[BlockModel.id row := row]> blocks, row)
      end
  end.

(** [query.where('id', index).first().throwIfNotFound()] and
    [query.findById(index).throwIfNotFound()]. *)
Definition findById (blocks : gmap Z BlockModel.t) (index : Z) : result BlockModel.t :=
  match blocks !! index with
  | Some row => Ok row
  | None => Err NotFoundError
  end.

(** The insert with its [catch]: on the duplicate-key signal the existing
    row is read back, any other error is thrown again. *)
Definition insertOrFetch (context : Context.t E) (blocks : gmap Z BlockModel.t)
    (row : BlockModel.t) : result (gmap Z BlockModel.t * BlockModel.t) :=
  catch (insertAndReturn context blocks row)
    (fun error =>
       if isUniqueError error
       then blockModel ← findById blocks (BlockModel.id row); Ok (blocks, blockModel)
       else Err error).

(** The address row of the block's next-consensus address. *)
Definition validator_address (block : Block.t) : AddressModel.t :=
  {| AddressModel.id := Block.nextConsensus block;
     AddressModel.transaction_id := None;
     AddressModel.transaction_hash := None;
     AddressModel.block_id := Block.index block;
     AddressModel.block_time := Block.time block;
     AddressModel.transaction_count := "0";
     AddressModel.transfer_count := "0";
     AddressModel.aggregate_block_id := -1 |}.

(** The four collaborator calls that [save] joins with the insert in one
    [Promise.all]; the second component is what the transaction updater
    resolves to ([innerNextContext]). *)
Definition save_fan_out (context : Context.t E) (block : Block.t)
    (prevBlockModel : option BlockModel.t) (aggregatedSystemFee : BigNumber.t) (e : E)
    : result (Context.t E * E) :=
  '(innerNextContext, e1) ← BlockUpdaters.transactions_save updaters context block e;
  e2 ← BlockUpdaters.address_save updaters context [validator_address block] e1;
  e3 ← SystemFee.save (Context.systemFee context) (Block.index block)
         (BigNumber.toFixed8 aggregatedSystemFee) e2;
  e4 ← BlockUpdaters.prevBlock_save updaters context block prevBlockModel e3;
  Ok (innerNextContext, e4).

Definition systemFee_of (block : Block.t) : BigNumber.t :=
  sum_fees Tx.systemFee (Block.transactions block).

Definition aggregatedSystemFee_of (block : Block.t)
    (prevBlockModel : option BlockModel.t) : BigNumber.t :=
  match prevBlockModel with
  | None => systemFee_of block
  | Some p =>
      BigNumber.plus (BigNumber.of_fixed8 (BlockModel.aggregated_system_fee p))
        (systemFee_of block)
  end.

(** The append branch of [save] (lines 52-134 of the source). *)
Definition append (w : World.t E) (context : Context.t E) (block : Block.t)
    (prevBlockModel : option BlockModel.t) : result (World.t E * Context.t E) :=
  let systemFee := systemFee_of block in
  let aggregatedSystemFee := aggregatedSystemFee_of block prevBlockModel in
  '(blocks', blockModel) ←
    insertOrFetch context (World.blocks w)
      (block_row block prevBlockModel systemFee aggregatedSystemFee);
  '(innerNextContext, e4) ←
    save_fan_out context block prevBlockModel aggregatedSystemFee (World.ext w);
  e5 ← BlockUpdaters.processedIndex_save updaters innerNextContext (Block.index block) e4;
  Ok (World.mk blocks' e5,
      Context.with_tip innerNextContext (Some blockModel) (BlockModel.id blockModel)).

(** The four collaborator calls that [revert] joins in one [Promise.all]. *)
Definition revert_fan_out (context : Context.t E) (blockModel : BlockModel.t)
    (prevBlockModel : option BlockModel.t) (e : E) : result E :=
  e1 ← BlockUpdaters.address_revert updaters context
         [BlockModel.next_validator_address_id blockModel] (BlockModel.id blockModel) e;
  e2 ← BlockUpdaters.transactions_revert updaters context blockModel e1;
  e3 ← SystemFee.revert (Context.systemFee context) (BlockModel.id blockModel) e2;
  BlockUpdaters.prevBlock_revert updaters context prevBlockModel e3.

(** [BlockUpdater.revert]. *)
Definition revert (w : World.t E) (context : Context.t E) (blockModel : BlockModel.t)
    : result (World.t E * Context.t E) :=
  let prevBlockModel := getPreviousBlockModel w context (BlockModel.id blockModel) in
  e4 ← revert_fan_out context blockModel prevBlockModel (World.ext w);
  let blocks' := delete (BlockModel.id blockModel) (World.blocks w) in
  e5 ← BlockUpdaters.processedIndex_revert updaters context (BlockModel.id blockModel) e4;
  let w' := World.mk blocks' e5 in
  let prevPrevBlockModel :=
    getPreviousBlockModel w' context (BlockModel.id blockModel - 1) in
  Ok (w',
      Context.with_tip context prevPrevBlockModel
        (match prevPrevBlockModel with
         | None => -1
         | Some p => BlockModel.id p
         end)).

(** [BlockUpdater.save].  The method calls itself after a revert; [fuel]
    bounds the number of nested calls, and [None] means the bound was hit. *)
Fixpoint save (fuel : nat) (w : World.t E) (context : Context.t E) (block : Block.t)
    {struct fuel} : option (result (World.t E * Context.t E)) :=
  match fuel with
  | O => None
  | S fuel =>
      let height := getCurrentHeight context in
      let prevBlockModel := getPreviousBlockModel w context (Block.index block) in
      if bool_decide (Block.index block = height + 1) then
        match prevBlockModel with
        | None => Some (append w context block None)
        | Some p =>
            if bool_decide (Block.previousBlockHash block = BlockModel.hash p)
            then Some (append w context block (Some p))
            else
              match
                prevBlock ← Client.getBlock (Context.client context) height;
                next ← revert w context p;
                Ok (prevBlock, next)
              with
              | Err e => Some (Err e)
              | Ok (prevBlock, (w', nextContext)) => save fuel w' nextContext prevBlock
              end
        end
      else if bool_decide (Block.index block = height) then
        match findById (World.blocks w) (Block.index block) with
        | Err e => Some (Err e)
        | Ok blockModel =>
            if bool_decide (Block.hash block ≠ BlockModel.hash blockModel) then
              match revert w context blockModel with
              | Err e => Some (Err e)
              | Ok (w', nextContext) => save fuel w' nextContext block
              end
            else Some (Ok (w, context))
        end
      else Some (Ok (w, context))
  end.

(** The driving loop, reduced to what the properties below need: the blocks
    of a list handed to [save] one after the other, each call starting from
    the context the previous one returned. *)
Fixpoint save_all (fuel : nat) (w : World.t E) (context : Context.t E)
    (chain : list Block.t) : option (result (World.t E * Context.t E)) :=
  match chain with
  | [] => Some (Ok (w, context))
  | block :: rest =>
      match save fuel w context block with
      | Some (Ok (w', context')) => save_all fuel w' context' rest
      | other => other
      end
  end.

(** The collaborators never fail on the append path, and the transaction
    updater hands back a context with the same storage and ledger handles
    [d] and [l], which never fail either. *)
Definition save_reliable (d : Db.t) (l : SystemFee.t E) : Prop :=
  (forall k, Db.insert_fault d k = None) /\
  (forall i v e, exists e', SystemFee.save l i v e = Ok e') /\
  (forall c a e, exists e', BlockUpdaters.address_save updaters c a e = Ok e') /\
  (forall c b p e, exists e', BlockUpdaters.prevBlock_save updaters c b p e = Ok e') /\
  (forall c i e, exists e', BlockUpdaters.processedIndex_save updaters c i e = Ok e') /\
  (forall c b e, exists c' e',
      BlockUpdaters.transactions_save updaters c b e = Ok (c', e') /\
      Context.db c' = Context.db c /\ Context.systemFee c' = Context.systemFee c).

(** The collaborators never fail on the revert path. *)
Definition revert_reliable (l : SystemFee.t E) : Prop :=
  (forall i e, exists e', SystemFee.revert l i e = Ok e') /\
  (forall c a i e, exists e', BlockUpdaters.address_revert updaters c a i e = Ok e') /\
  (forall c m e, exists e', BlockUpdaters.transactions_revert updaters c m e = Ok e') /\
  (forall c p e, exists e', BlockUpdaters.prevBlock_revert updaters c p e = Ok e') /\
  (forall c i e, exists e', BlockUpdaters.processedIndex_revert updaters c i e = Ok e').

End BlockUpdater.

(** *** Chains *)

(** Contiguous indices from [i] on, each block naming the hash of the one
    before it. *)
Fixpoint linked (i : Z) (prev : option string) (chain : list Block.t) : Prop :=
  match chain with
  | [] => True
  | block :: rest =>
      Block.index block = i /\
      match prev with
      | None => True
      | Some h => Block.previousBlockHash block = h
      end /\
      linked (i + 1) (Some (Block.hash block)) rest
  end.

(** The exact sum of the per-block system fees of a list of blocks. *)
Definition exact_total (chain : list Block.t) : BigNumber.t :=
  fold_left (fun acc block => BigNumber.plus acc (systemFee_of block)) chain BigNumber.ZERO.

(** Every transaction fee of the chain has at most eight fractional digits. *)
Definition fees_fit8 (chain : list Block.t) : Prop :=
  Forall (fun block => Forall (fun tx => BigNumber.fits8 (Tx.systemFee tx))
                         (Block.transactions block)) chain.

(** A block's system fee and the fee of a list of blocks, in units of
    10^-8, as the columns store them. *)
Definition fee_units (block : Block.t) : Z :=
  BigNumber.toFixed8 (systemFee_of block).

Definition total_units (chain : list Block.t) : Z :=
  foldr (fun block acc => fee_units block + acc) 0 chain.

(** The stored aggregated system fee at an index, 0 where no row is
    committed (as below the first block). *)
Definition aggregated_at {E : Type} (w : World.t E) (n : Z) : Z :=
  match World.blocks w !! n with
  | Some row => BlockModel.aggregated_system_fee row
  | None => 0
  end.

(** The state reached when exactly the blocks [done] (indices 0, 1, ...)
    are committed: the height is the last index, the table has a row for each
    block and none elsewhere, and each row carries the block's hash and the
    fee total of the prefix it ends. *)
Definition ingested {E : Type} (d : Db.t) (l : SystemFee.t E)
    (w : World.t E) (context : Context.t E) (done : list Block.t) : Prop :=
  Context.currentHeight context = Z.of_nat (length done) - 1 /\
  Context.db context = d /\
  Context.systemFee context = l /\
  (forall k, k < 0 \/ Z.of_nat (length done) <= k -> World.blocks w !! k = None) /\
  (forall n block, done !! n = Some block ->
     exists row,
       World.blocks w !! Z.of_nat n = Some row /\
       BlockModel.hash row = Block.hash block /\
       BlockModel.system_fee row = fee_units block /\
       BlockModel.aggregated_system_fee row = total_units (take (S n) done)).

(** ** Asset and contract extraction *)

Module AssetModel.
Record t : Type := mk {
  id : string;
  transaction_id : string;
  transaction_hash : string;
  type : string;
  name_raw : string;
  symbol : string;
  amount : string;
  precision : Z;
  owner : option string;
  admin_address_id : option string;
  block_time : Z;
  issued : string;
  address_count : string;
  transfer_count : string;
  transaction_count : string;
  aggregate_block_id : Z
}.
End AssetModel.

(** The two classification tags of the database package. *)
Inductive ContractType : Type :=
| NEP5_CONTRACT_TYPE
| UNKNOWN_CONTRACT_TYPE.

Module ContractModel.
Record t : Type := mk {
  id : string;
  script : string;
  parameters_raw : string;
  return_type : string;
  needs_storage : bool;
  name : string;
  version : string;
  author : string;
  email : string;
  description : string;
  transaction_id : string;
  transaction_hash : string;
  block_time : Z;
  block_id : Z;
  type : ContractType
}.
End ContractModel.

(** *** Hex encoding and substring search *)

Definition hex_digit (n : N) : ascii :=
  match n with
  | 0 => "0" | 1 => "1" | 2 => "2" | 3 => "3" | 4 => "4" | 5 => "5" | 6 => "6" | 7 => "7"
  | 8 => "8" | 9 => "9" | 10 => "a" | 11 => "b" | 12 => "c" | 13 => "d" | 14 => "e"
  | _ => "f"
  end%N%char.

(** [Buffer.from(s, 'utf8').toString('hex')] for a string of one-byte
    characters. *)
Fixpoint hex_encode (s : string) : string :=
  match s with
  | EmptyString => EmptyString
  | String c rest =>
      String (hex_digit (N.div (N_of_ascii c) 16))
        (String (hex_digit (N.modulo (N_of_ascii c) 16)) (hex_encode rest))
  end.

(** [s.includes(sub)]. *)
Fixpoint includes (s sub : string) : bool :=
  if String.prefix sub s then true
  else
    match s with
    | EmptyString => false
    | String _ rest => includes rest sub
    end.

Definition NEP5_METHODS : list string :=
  ["totalSupply"; "name"; "symbol"; "decimals"; "balanceOf"; "transfer"]%string.

Definition NEP5_ATTRIBUTES : list string := map hex_encode NEP5_METHODS.

Section Extraction.

Context {E : Type}.

(** bignumber.js and the JavaScript built-ins the extraction calls;
    [add0x] is a helper of the package that is not among the sources. *)
Variable BigNumber_toString : BigNumber.t -> string.
Variable BigNumber_toNumber : BigNumber.t -> Z.
Variable JSON_stringify : string -> string.
Variable JSON_stringify_array : list string -> string.
Variable add0x : string -> string.

Definition asset_of (transaction : Tx.t) : option Asset.t :=
  match Tx.body transaction with
  | RegisterTransaction asset => Some asset
  | InvocationTransaction invocationData => InvocationData.asset invocationData
  | _ => None
  end.

Definition getAsset (transaction : Tx.t) (blockTime : Z) : option AssetModel.t :=
  match asset_of transaction with
  | Some asset =>
      Some {| AssetModel.id := Tx.txid transaction;
              AssetModel.transaction_id := BigNumber_toString (Tx.globalIndex transaction);
              AssetModel.transaction_hash := Tx.txid transaction;
              AssetModel.type := Asset.type asset;
              AssetModel.name_raw := JSON_stringify (Asset.name asset);
              AssetModel.symbol := JSON_stringify (Asset.name asset);
              AssetModel.amount := BigNumber_toString (Asset.amount asset);
              AssetModel.precision := Asset.precision asset;
              AssetModel.owner := Some (Asset.owner asset);
              AssetModel.admin_address_id := Some (Asset.admin asset);
              AssetModel.block_time := blockTime;
              AssetModel.issued := "0";
              AssetModel.address_count := "0";
              AssetModel.transfer_count := "0";
              AssetModel.transaction_count := "0";
              AssetModel.aggregate_block_id := -1 |}
  | None => None
  end.

Definition checkIsNEP5 (context : Context.t E) (contract : Contract.t) : bool :=
  if bool_decide (Contract.hash contract ∈ Context.blacklistNEP5Hashes context)
  then false
  else forallb (fun attribute => includes (Contract.script contract) attribute)
         NEP5_ATTRIBUTES.

(** The classification criterion in words: the contract is not blacklisted
    and its script contains the hex encoding of each of the six method
    names. *)
Definition nep5_condition (context : Context.t E) (contract : Contract.t) : Prop :=
  (Contract.hash contract ∉ Context.blacklistNEP5Hashes context) /\
  Forall (fun method =>
            exists pre post,
              Contract.script contract = pre +:+ hex_encode method +:+ post)
         NEP5_METHODS.

(** What [getContractAndAsset] resolves to. *)
Record ContractAndAsset : Type := mkContractAndAsset {
  ca_asset : option AssetModel.t;
  ca_contract : ContractModel.t;
  ca_nep5Contract : option ReadSmartContract.t
}.

Definition contract_model (transaction : Tx.t) (contract : Contract.t)
    (blockIndex blockTime : Z) (isNEP5 : bool) : ContractModel.t :=
  {| ContractModel.id := Contract.hash contract;
     ContractModel.script := Contract.script contract;
     ContractModel.parameters_raw := JSON_stringify_array (Contract.parameters contract);
     ContractModel.return_type := Contract.returnType contract;
     ContractModel.needs_storage := Contract.storage contract;
     ContractModel.name := Contract.name contract;
     ContractModel.version := Contract.codeVersion contract;
     ContractModel.author := Contract.author contract;
     ContractModel.email := Contract.email contract;
     ContractModel.description := Contract.description contract;
     ContractModel.transaction_id := BigNumber_toString (Tx.globalIndex transaction);
     ContractModel.transaction_hash := Tx.txid transaction;
     ContractModel.block_time := blockTime;
     ContractModel.block_id := blockIndex;
     ContractModel.type := if isNEP5 then NEP5_CONTRACT_TYPE else UNKNOWN_CONTRACT_TYPE |}.

(** The asset row of a token contract, from the four queried values. *)
Definition nep5_asset (transaction : Tx.t) (contractModel : ContractModel.t)
    (blockTime : Z) (name symbol : string) (decimals totalSupply : BigNumber.t)
    : AssetModel.t :=
  {| AssetModel.id := ContractModel.id contractModel;
     AssetModel.transaction_id := BigNumber_toString (Tx.globalIndex transaction);
     AssetModel.transaction_hash := Tx.txid transaction;
     AssetModel.type := "NEP5";
     AssetModel.name_raw := JSON_stringify name;
     AssetModel.symbol := symbol;
     AssetModel.amount := BigNumber_toString totalSupply;
     AssetModel.precision := BigNumber_toNumber decimals;
     AssetModel.owner := None;
     AssetModel.admin_address_id := None;
     AssetModel.block_time := blockTime;
     AssetModel.issued := "0";
     AssetModel.address_count := "0";
     AssetModel.transfer_count := "0";
     AssetModel.transaction_count := "0";
     AssetModel.aggregate_block_id := -1 |}.

Definition getContractAndAsset (context : Context.t E) (transaction : Tx.t)
    (contract : Contract.t) (blockIndex blockTime : Z) : result ContractAndAsset :=
  let isNEP5 := checkIsNEP5 context contract in
  let contractModel := contract_model transaction contract blockIndex blockTime isNEP5 in
  if isNEP5 then
    contractABI ←
      Client.abi_NEP5 (Context.client context) (add0x (ContractModel.id contractModel));
    let nep5Contract :=
      Client.smartContract (Context.client context)
        (add0x (ContractModel.id contractModel)) contractABI in
    name ← ReadSmartContract.name nep5Contract;
    symbol ← ReadSmartContract.symbol nep5Contract;
    decimals ← ReadSmartContract.decimals nep5Contract;
    totalSupply ←
      catch (ReadSmartContract.totalSupply nep5Contract)
        (fun _ => Ok (BigNumber.mk 0 0));
    Ok (mkContractAndAsset
          (Some (nep5_asset transaction contractModel blockTime
                   name symbol decimals totalSupply))
          contractModel (Some nep5Contract))
  else Ok (mkContractAndAsset None contractModel None).

(** What [getContracts] resolves to. *)
Record Contracts : Type := mkContracts {
  cs_assets : list AssetModel.t;
  cs_contracts : list ContractModel.t;
  cs_nep5Contracts : list (string * ReadSmartContract.t)
}.

Definition contracts_of (transaction : Tx.t) : list Contract.t :=
  match Tx.body transaction with
  | InvocationTransaction invocationData => InvocationData.contracts invocationData
  | PublishTransaction contract => [contract]
  | _ => []
  end.

Definition getContracts (context : Context.t E) (transaction : Tx.t)
    (blockIndex blockTime : Z) : result Contracts :=
  results ←
    mapM (fun contract =>
            getContractAndAsset context transaction contract blockIndex blockTime)
         (contracts_of transaction);
  Ok (mkContracts
        (omap ca_asset results)
        (map ca_contract results)
        (omap (fun r =>
                 match ca_nep5Contract r with
                 | None => None
                 | Some nep5Contract => Some (ContractModel.id (ca_contract r), nep5Contract)
                 end) results)).

(** What [getAssetsAndContractsForClient] resolves to. *)
Record AssetsAndContracts : Type := mkAssetsAndContracts {
  ac_assets : list AssetModel.t;
  ac_contracts : list ContractModel.t;
  ac_context : Context.t E
}.

Definition getAssetsAndContractsForClient (context : Context.t E)
    (transactions : list (Tx.t * Z)) (blockIndex blockTime : Z)
    : result AssetsAndContracts :=
  let assets := omap (fun '(transaction, _) => getAsset transaction blockTime) transactions in
  results ←
    mapM (fun '(transaction, _) => getContracts context transaction blockIndex blockTime)
         transactions;
  Ok (mkAssetsAndContracts
        (assets ++ concat (map cs_assets results))
        (concat (map cs_contracts results))
        (Context.with_nep5Contracts context
           (fold_left (fun acc '(contractID, nep5Contract) => <[contractID := nep5Contract]> acc)
              (concat (map cs_nep5Contracts results))
              (Context.nep5Contracts context)))).

End Extraction.

(** ** Concrete collaborators and chains

    Collaborators that keep no state and always succeed, a client serving a
    fixed canonical chain, and the chains used by the examples. *)

Definition null_systemFee : SystemFee.t unit :=
  SystemFee.mk (fun _ _ e => Ok e) (fun _ e => Ok e).

Definition null_db : Db.t := Db.mk (fun _ => None).

Definition null_updaters : BlockUpdaters.t unit :=
  BlockUpdaters.mk
    (fun _ _ e => Ok e) (fun _ _ _ e => Ok e)
    (fun _ _ e => Ok e) (fun _ _ e => Ok e)
    (fun _ _ _ e => Ok e) (fun _ _ e => Ok e)
    (fun c _ e => Ok (c, e)) (fun _ _ e => Ok e).

(** A transaction that carries nothing but a system fee. *)
Definition fee_tx (fee : BigNumber.t) : Tx.t :=
  Tx.mk "tx" fee BigNumber.ZERO BigNumber.ZERO (OtherTransaction "ContractTransaction").

Definition block_at (index : Z) (hash previousBlockHash : string)
    (fees : list BigNumber.t) : Block.t :=
  Block.mk index hash previousBlockHash 0 0 "root" 0 "nonce" "validator" "inv" "ver"
    (map fee_tx fees).

(** [client.getBlock] over a fixed chain. *)
Definition chain_getBlock (chain : list Block.t) (height : Z) : result Block.t :=
  match List.find (fun b => bool_decide (Block.index b = height)) chain with
  | Some b => Ok b
  | None => Err (OtherError "unknown block")
  end.

Definition chain_client (chain : list Block.t) : Client.t :=
  Client.mk (chain_getBlock chain)
    (fun _ => Err (OtherError "no contract"))
    (fun _ _ => ReadSmartContract.mk (Err NotFoundError) (Err NotFoundError)
                  (Err NotFoundError) (Err NotFoundError)).

Definition empty_world : World.t unit := World.mk ∅ tt.

Definition start_context (client : Client.t) : Context.t unit :=
  Context.mk null_db client null_systemFee (-1) None ∅ ∅.

Definition one : BigNumber.t := BigNumber.mk 1 0.

(** The local history A0..A5. *)
Definition chainA : list Block.t :=
  [ block_at 0 "h0" "genesis" [one];
    block_at 1 "h1" "h0" [one];
    block_at 2 "h2" "h1" [one];
    block_at 3 "a3" "h2" [one];
    block_at 4 "a4" "a3" [one];
    block_at 5 "a5" "a4" [one] ].

(** The canonical history B0..B5: the same up to index 2, another block at 3. *)
Definition chainB : list Block.t :=
  [ block_at 0 "h0" "genesis" [one];
    block_at 1 "h1" "h0" [one];
    block_at 2 "h2" "h1" [one];
    block_at 3 "b3" "h2" [one];
    block_at 4 "b4" "b3" [one];
    block_at 5 "b5" "b4" [one] ].

Definition canonical (i : nat) : Block.t :=
  nth i chainB (block_at (-1) "none" "none" []).

(** The state after the local history was ingested, the client serving the
    canonical one. *)
Definition local_state (chain : list Block.t) : option (result (World.t unit * Context.t unit)) :=
  save_all null_updaters 1 empty_world (start_context (chain_client chainB)) chain.

Definition hashes_of (w : World.t unit) (n : nat) : list (option string) :=
  map (fun i => BlockModel.hash <$> World.blocks w !! Z.of_nat i) (seq 0 n).

(** Ingest [chain], then hand [blocks] to [save] one after the other; the
    height and the committed hashes at 0..5 afterwards. *)
Definition replay (chain : list Block.t) (blocks : list Block.t)
    : option (result (Z * list (option string))) :=
  match local_state chain with
  | Some (Ok (w, c)) =>
      match save_all null_updaters 8 w c blocks with
      | Some (Ok (w', c')) => Some (Ok (Context.currentHeight c', hashes_of w' 6))
      | Some (Err e) => Some (Err e)
      | None => None
      end
  | Some (Err e) => Some (Err e)
  | None => None
  end.


(** The pair a run ended with (the empty state when it did not end well). *)
Definition state_of (r : option (result (World.t unit * Context.t unit)))
    : World.t unit * Context.t unit :=
  match r with
  | Some (Ok p) => p
  | _ => (empty_world, start_context (chain_client []))
  end.

(** The local history committed up to A5, up to A2, and up to A0. *)
Definition localA : World.t unit * Context.t unit := state_of (local_state chainA).
Definition localA2 : World.t unit * Context.t unit := state_of (local_state (take 3 chainA)).
Definition localA0 : World.t unit * Context.t unit := state_of (local_state (take 1 chainA)).

Definition canonicalZ (i : Z) : Block.t := canonical (Z.to_nat i).

(** A row of the table, or an empty row where there is none. *)
Definition row_at (w : World.t unit) (i : Z) : BlockModel.t :=
  default (block_row (block_at (-1) "none" "none" []) None BigNumber.ZERO BigNumber.ZERO)
    (World.blocks w !! i).

(** A first block whose only fee is 0.000000005. *)
Definition dust_block : Block.t :=
  block_at 0 "h0" "genesis" [BigNumber.mk 5 9].

(** *** Built-ins and a token contract for the examples *)

(** A decimal printer: the digits of the coefficient, with the exponent
    when there are fractional digits. *)
Definition decimal_toString (a : BigNumber.t) : string :=
  let digits := NilZero.string_of_int (Z.to_int (BigNumber.coef a)) in
  match BigNumber.scale a with
  | O => digits
  | S _ => digits +:+ "e-" +:+ NilZero.string_of_uint (Nat.to_uint (BigNumber.scale a))
  end.

Definition integer_toNumber (a : BigNumber.t) : Z :=
  BigNumber.coef a / 10 ^ Z.of_nat (BigNumber.scale a).

(** A string between double quotes. *)
Definition quoted (s : string) : string :=
  String "034" (s +:+ String "034" EmptyString).

Definition quoted_array (l : list string) : string :=
  "[" +:+ (String.concat "," (map quoted l) +:+ "]").

Definition prefix_0x (hash : string) : string := "0x" +:+ hash.

(** A script made of the six method names and nothing else. *)
Definition token_script : string := String.concat EmptyString NEP5_ATTRIBUTES.

Definition token_contract : Contract.t :=
  Contract.mk "c0ffee" token_script ["String"; "Array"] "ByteArray" true
    "Token" "1.0" "author" "mail" "a token".

Definition plain_contract : Contract.t :=
  Contract.mk "decaf" "00c56b6c766b00527ac4" [] "Void" false
    "Plain" "1.0" "author" "mail" "no token".

(** A token whose [totalSupply] call fails, the other three succeeding. *)
Definition unsupplied_token : ReadSmartContract.t :=
  ReadSmartContract.mk (Ok "Red Pulse") (Ok "RPX") (Ok (BigNumber.mk 8 0))
    (Err (OtherError "VM fault")).

Definition token_client : Client.t :=
  Client.mk (fun _ => Err (OtherError "unknown block"))
    (fun hash => Ok (NEP5_ABI hash))
    (fun _ _ => unsupplied_token).

Definition token_context : Context.t unit :=
  Context.mk null_db token_client null_systemFee (-1) None ∅ ∅.

Definition publish_tx (contract : Contract.t) : Tx.t :=
  Tx.mk "txid" BigNumber.ZERO BigNumber.ZERO (BigNumber.mk 42 0)
    (PublishTransaction contract).

Definition register_tx : Tx.t :=
  Tx.mk "asset" BigNumber.ZERO BigNumber.ZERO (BigNumber.mk 7 0)
    (RegisterTransaction
       (Asset.mk "Token" "AntShare" (BigNumber.mk 100000000 0) 0 "owner" "admin")).

(** *** Invariants of the block table and the context *)

(** Every row is stored under its own index (the primary key). *)
Definition table_wf (blocks : gmap Z BlockModel.t) : Prop :=
  forall k row, blocks !! k = Some row -> BlockModel.id row = k.

(** The context's previous-block pointer, when set, is the committed row at
    the context's height. *)
Definition tip_consistent {E : Type} (w : World.t E) (context : Context.t E) : Prop :=
  forall row,
    Context.prevBlock context = Some row ->
    World.blocks w !! Context.currentHeight context = Some row.

(** The state reached when exactly the blocks [done] are committed, each
    row being the one [save] builds from its block and the row below it. *)
Definition chained {E : Type} (d : Db.t) (l : SystemFee.t E)
    (w : World.t E) (context : Context.t E) (done : list Block.t) : Prop :=
  Context.currentHeight context = Z.of_nat (length done) - 1 /\
  Context.db context = d /\
  Context.systemFee context = l /\
  (forall k, k < 0 \/ Z.of_nat (length done) <= k -> World.blocks w !! k = None) /\
  (forall n block, done !! n = Some block ->
     World.blocks w !! Z.of_nat n
     = Some (block_row block (World.blocks w !! (Z.of_nat n - 1)) (systemFee_of block)
               (aggregatedSystemFee_of block (World.blocks w !! (Z.of_nat n - 1))))).

(** A decimal in units of 10^-n, for [n] at least its scale. *)
Definition units_at (n : nat) (a : BigNumber.t) : Z :=
  BigNumber.coef a * 10 ^ Z.of_nat (n - BigNumber.scale a).

(** The largest scale among an accumulator and the fees of a list. *)
Definition max_scale {A : Type} (f : A -> BigNumber.t) (xs : list A) (acc : BigNumber.t)
    : nat :=
  foldr (fun x m => Nat.max (BigNumber.scale (f x)) m) (BigNumber.scale acc) xs.

(** All contracts a batch of transactions brings, in input order. *)
Definition batch_contracts (transactions : list (Tx.t * Z)) : list (Tx.t * Contract.t) :=
  concat (map (fun '(transaction, _) =>
                 map (fun contract => (transaction, contract)) (contracts_of transaction))
              transactions).

(** *** Further states and collaborators for the examples *)

(** The state after the canonical B5 was handed to [save] over the local
    history. *)
Definition after_fork : World.t unit * Context.t unit :=
  state_of (save null_updaters 8 (fst localA) (snd localA) (canonical 5)).

(** Another first block. *)
Definition other_first_block : Block.t :=
  block_at 0 "b0" "genesis" [one; one].

(** Collaborators whose address updater rejects every save. *)
Definition broken_updaters : BlockUpdaters.t unit :=
  BlockUpdaters.mk
    (fun _ _ _ => Err (OtherError "address table locked")) (fun _ _ _ e => Ok e)
    (fun _ _ e => Ok e) (fun _ _ e => Ok e)
    (fun _ _ _ e => Ok e) (fun _ _ e => Ok e)
    (fun c _ e => Ok (c, e)) (fun _ _ e => Ok e).

(** The counters and the aggregation sentinel every new asset row starts
    with. *)
Definition fresh_counters (blockTime : Z) (row : AssetModel.t) : Prop :=
  AssetModel.issued row = "0"%string /\
  AssetModel.address_count row = "0"%string /\
  AssetModel.transfer_count row = "0"%string /\
  AssetModel.transaction_count row = "0"%string /\
  AssetModel.aggregate_block_id row = -1 /\
  AssetModel.block_time row = blockTime.

(** A token row: typed NEP5, without owner or admin. *)
Definition token_row (blockTime : Z) (row : AssetModel.t) : Prop :=
  AssetModel.type row = "NEP5"%string /\
  AssetModel.owner row = None /\
  AssetModel.admin_address_id row = None /\
  fresh_counters blockTime row.

(** The contracts of a batch that are classified as token contracts. *)
Definition batch_tokens {E : Type} (context : Context.t E)
    (transactions : list (Tx.t * Z)) : list (Tx.t * Contract.t) :=
  filter (fun p => checkIsNEP5 context p.2 = true) (batch_contracts transactions).

(** *** Batches for the examples *)

Definition sample_batch : list (Tx.t * Z) :=
  [ (register_tx, 0); (publish_tx token_contract, 1); (publish_tx plain_contract, 2) ].

(** What the extraction resolves to on [sample_batch] (an empty result when
    it fails). *)
Definition sample_extraction : AssetsAndContracts :=
  match getAssetsAndContractsForClient decimal_toString integer_toNumber quoted
          quoted_array prefix_0x token_context sample_batch 10 1000 with
  | Ok r => r
  | Err _ => mkAssetsAndContracts [] [] token_context
  end.

(** A client whose token handles fail on [name]. *)
Definition nameless_client : Client.t :=
  Client.mk (fun _ => Err (OtherError "unknown block"))
    (fun hash => Ok (NEP5_ABI hash))
    (fun _ _ => ReadSmartContract.mk (Err (OtherError "no name")) (Ok "RPX")
                  (Ok (BigNumber.mk 8 0)) (Ok (BigNumber.mk 0 0))).

Definition nameless_context : Context.t unit :=
  Context.mk null_db nameless_client null_systemFee (-1) None ∅ ∅.

(** The token script between other bytes. *)
Definition padded_contract : Contract.t :=
  Contract.mk "f00d" ("00c56b" +:+ token_script +:+ "6c7566") [] "Void" false
    "Padded" "1.0" "author" "mail" "padded".

(** Two blocks with the same two fees in opposite orders. *)
Definition two_fee_block : Block.t :=
  block_at 7 "h7" "h6" [BigNumber.mk 25 1; one].

Definition two_fee_block_swapped : Block.t :=
  block_at 7 "h7" "h6" [one; BigNumber.mk 25 1].

(** * Decimal arithmetic *)

Section BigNumberFacts.

Import BigNumber.

Lemma pow10_pos (n : nat) : 0 < 10 ^ Z.of_nat n.
Proof. apply Z.pow_pos_nonneg; lia. Qed.

Lemma pow10_split (s n : nat) :
  (n <= s)%nat -> 10 ^ Z.of_nat n * 10 ^ Z.of_nat (s - n) = 10 ^ Z.of_nat s.
Proof.
  intros Hle. rewrite <- Z.pow_add_r by lia. f_equal. lia.
Qed.

Lemma round_half_up_exact (u d : Z) : 0 < d -> round_half_up (u * d) d = u.
Proof.
  intros Hd. unfold round_half_up.
  assert (Hq : (2 * Z.abs (u * d) + d) / (2 * d) = Z.abs u).
  { symmetry. apply Z.div_unique with (r := d); [lia|].
    rewrite Z.abs_mul, (Z.abs_eq d) by lia. lia. }
  rewrite Hq, Z.sgn_mul, (Z.sgn_pos d) by lia.
  rewrite Z.mul_1_r. lia.
Qed.

(** A decimal worth exactly [u] units of 10^-8 prints as [u]. *)
Lemma toFixed8_exact (a : t) (u : Z) : eqv (of_fixed8 u) a -> toFixed8 a = u.
Proof.
  unfold eqv, toFixed8. simpl. intros H.
  change (10 ^ Z.of_nat 8) with (10 ^ 8) in H. rewrite <- H.
  apply round_half_up_exact, pow10_pos.
Qed.

Lemma fits8_exact (a : t) : fits8 a -> eqv (of_fixed8 (toFixed8 a)) a.
Proof.
  intros [u Hu].
  assert (Heq : eqv (of_fixed8 u) a).
  { unfold eqv. simpl. change (10 ^ Z.of_nat 8) with (10 ^ 8). lia. }
  now rewrite (toFixed8_exact a u Heq).
Qed.

Lemma plus_exact (a b : t) (u v : Z) :
  eqv (of_fixed8 u) a -> eqv (of_fixed8 v) b -> eqv (of_fixed8 (u + v)) (plus a b).
Proof.
  unfold eqv, plus. cbn [coef scale of_fixed8]. intros Ha Hb.
  set (s := Nat.max (scale a) (scale b)).
  assert (Hsa : 10 ^ Z.of_nat (scale a) * 10 ^ Z.of_nat (s - scale a) = 10 ^ Z.of_nat s)
    by (apply pow10_split; subst s; lia).
  assert (Hsb : 10 ^ Z.of_nat (scale b) * 10 ^ Z.of_nat (s - scale b) = 10 ^ Z.of_nat s)
    by (apply pow10_split; subst s; lia).
  rewrite Z.mul_add_distr_r, Z.mul_add_distr_r.
  f_equal.
  - rewrite <- Hsa, Z.mul_assoc, Ha. ring.
  - rewrite <- Hsb, Z.mul_assoc, Hb. ring.
Qed.

Lemma ZERO_exact : eqv (of_fixed8 0) ZERO.
Proof. reflexivity. Qed.

Lemma of_fixed8_exact (u : Z) : eqv (of_fixed8 u) (of_fixed8 u).
Proof. reflexivity. Qed.

End BigNumberFacts.

(** * Properties of the block updater *)

Section BlockUpdaterFacts.

Context {E : Type}.
Variable updaters : BlockUpdaters.t E.

Implicit Types (w : World.t E) (context : Context.t E) (block : Block.t).

Lemma insertAndReturn_fresh context (blocks : gmap Z BlockModel.t) row :
  Db.insert_fault (Context.db context) (BlockModel.id row) = None ->
  blocks !! BlockModel.id row = None ->
  insertOrFetch context blocks row = Ok (<[BlockModel.id row := row]> blocks, row).
Proof.
  intros Hfault Hfree. unfold insertOrFetch, insertAndReturn.
  now rewrite Hfault, Hfree.
Qed.

Lemma insertAndReturn_conflict context (blocks : gmap Z BlockModel.t) row existing :
  Db.insert_fault (Context.db context) (BlockModel.id row) = None ->
  blocks !! BlockModel.id row = Some existing ->
  insertAndReturn context blocks row = Err UniqueViolation /\
  insertOrFetch context blocks row = Ok (blocks, existing).
Proof.
  intros Hfault Hrow. unfold insertOrFetch, insertAndReturn, findById.
  rewrite Hfault, Hrow. now split.
Qed.

Lemma insertAndReturn_fault context (blocks : gmap Z BlockModel.t) row msg :
  Db.insert_fault (Context.db context) (BlockModel.id row) = Some msg ->
  insertOrFetch context blocks row = Err (OtherError msg).
Proof.
  intros Hfault. unfold insertOrFetch, insertAndReturn. now rewrite Hfault.
Qed.

(** One unfolding of [save] on the append branch. *)
Lemma save_append fuel w context block prevBlockModel :
  Block.index block = getCurrentHeight context + 1 ->
  getPreviousBlockModel w context (Block.index block) = prevBlockModel ->
  match prevBlockModel with
  | None => True
  | Some p => Block.previousBlockHash block = BlockModel.hash p
  end ->
  save updaters (S fuel) w context block
  = Some (append updaters w context block prevBlockModel).
Proof.
  intros Hidx Hprev Hlink. simpl. rewrite bool_decide_eq_true_2 by exact Hidx.
  rewrite Hprev. destruct prevBlockModel as [p|]; [|reflexivity].
  now rewrite bool_decide_eq_true_2 by exact Hlink.
Qed.

(** One unfolding of [save] when neither index test holds. *)
Lemma save_fall_through fuel w context block :
  Block.index block <> getCurrentHeight context + 1 ->
  Block.index block <> getCurrentHeight context ->
  save updaters (S fuel) w context block = Some (Ok (w, context)).
Proof.
  intros Hnext Hcur. simpl.
  rewrite bool_decide_eq_false_2 by exact Hnext.
  now rewrite bool_decide_eq_false_2 by exact Hcur.
Qed.

(** C9: a block whose index is neither height + 1 nor height is ignored:
    [save] writes nothing, raises nothing and returns the context it was
    given. *)
Theorem save_out_of_order_noop fuel w context block :
  Block.index block <> getCurrentHeight context + 1 ->
  Block.index block <> getCurrentHeight context ->
  save updaters (S fuel) w context block = Some (Ok (w, context)).
Proof. apply save_fall_through. Qed.

Lemma save_same_hash_noop fuel w context block row :
  Block.index block = getCurrentHeight context ->
  World.blocks w !! Block.index block = Some row ->
  BlockModel.hash row = Block.hash block ->
  save updaters (S fuel) w context block = Some (Ok (w, context)).
Proof.
  intros Hidx Hrow Hhash. simpl.
  rewrite bool_decide_eq_false_2 by lia.
  rewrite bool_decide_eq_true_2 by exact Hidx.
  unfold findById. rewrite Hrow.
  rewrite bool_decide_eq_false_2; [reflexivity|].
  intros Hne. apply Hne. now symmetry.
Qed.

(** One unfolding of [save] on a block at the current height whose hash is
    not the committed one. *)
Lemma save_replace fuel w context block row :
  Block.index block = getCurrentHeight context ->
  World.blocks w !! Block.index block = Some row ->
  Block.hash block <> BlockModel.hash row ->
  save updaters (S fuel) w context block
  = match revert updaters w context row with
    | Err e => Some (Err e)
    | Ok (w', nextContext) => save updaters fuel w' nextContext block
    end.
Proof.
  intros Hidx Hrow Hhash. simpl.
  rewrite bool_decide_eq_false_2 by lia.
  rewrite bool_decide_eq_true_2 by exact Hidx.
  unfold findById. rewrite Hrow.
  now rewrite bool_decide_eq_true_2 by exact Hhash.
Qed.

(** What a successful append of a block at a free index leaves behind. *)
Lemma append_fresh w context block prevBlockModel w' context' :
  World.blocks w !! Block.index block = None ->
  append updaters w context block prevBlockModel = Ok (w', context') ->
  let row := block_row block prevBlockModel (systemFee_of block)
               (aggregatedSystemFee_of block prevBlockModel) in
  World.blocks w' = <[Block.index block := row]> (World.blocks w) /\
  Context.prevBlock context' = Some row /\
  Context.currentHeight context' = Block.index block.
Proof.
  intros Hfree Happ row. unfold append in Happ. fold row in Happ.
  unfold insertOrFetch, insertAndReturn in Happ.
  destruct (Db.insert_fault _ _) eqn:Hfault; [discriminate|].
  change (BlockModel.id row) with (Block.index block) in Happ.
  rewrite Hfree in Happ. simpl in Happ.
  destruct (save_fan_out _ _ _ _ _ _) as [[inner e4]|]; [|discriminate].
  simpl in Happ.
  destruct (BlockUpdaters.processedIndex_save _ _ _ _) as [e5|]; [|discriminate].
  simpl in Happ. injection Happ as <- <-. now repeat split.
Qed.

(** C8: a block at the current height whose hash equals the committed one
    leaves the store and the context as they were; so handing [save] a block
    a second time, right after it was appended at a free index, changes
    nothing: the row stays and its aggregated fee is not added again. *)
Theorem save_stale_duplicate_noop :
  (forall fuel w context block row,
      Block.index block = getCurrentHeight context ->
      World.blocks w !! Block.index block = Some row ->
      BlockModel.hash row = Block.hash block ->
      save updaters (S fuel) w context block = Some (Ok (w, context))) /\
  (forall fuel fuel' w context block w1 context1,
      Block.index block = getCurrentHeight context + 1 ->
      match getPreviousBlockModel w context (Block.index block) with
      | None => True
      | Some p => Block.previousBlockHash block = BlockModel.hash p
      end ->
      World.blocks w !! Block.index block = None ->
      save updaters (S fuel) w context block = Some (Ok (w1, context1)) ->
      save updaters (S fuel') w1 context1 block = Some (Ok (w1, context1)) /\
      exists row,
        World.blocks w1 !! Block.index block = Some row /\
        BlockModel.hash row = Block.hash block /\
        BlockModel.aggregated_system_fee row
        = BigNumber.toFixed8
            (aggregatedSystemFee_of block
               (getPreviousBlockModel w context (Block.index block)))).
Proof.
  split; [apply save_same_hash_noop|].
  intros fuel fuel' w context block w1 context1 Hidx Hlink Hfree Hsave.
  rewrite (save_append fuel w context block _ Hidx eq_refl Hlink) in Hsave.
  injection Hsave as Happ.
  destruct (append_fresh _ _ _ _ _ _ Hfree Happ) as (Hblocks & _ & Hheight).
  set (row := block_row block _ _ _) in Hblocks.
  assert (Hrow : World.blocks w1 !! Block.index block = Some row).
  { rewrite Hblocks. apply lookup_insert_eq. }
  split.
  - apply save_same_hash_noop with (row := row); [now symmetry|exact Hrow|reflexivity].
  - exists row. now repeat split.
Qed.

(** C7: on the append branch, when the insert meets a row that already
    holds the index, the duplicate-key signal is caught, the existing row is
    read back and becomes the committed value, and [save] succeeds (the
    collaborators succeeding); any other storage error on the insert is what
    [save] fails with. *)
Theorem save_insert_or_fetch fuel w context block prevBlockModel inner e4 :
  Block.index block = getCurrentHeight context + 1 ->
  getPreviousBlockModel w context (Block.index block) = prevBlockModel ->
  match prevBlockModel with
  | None => True
  | Some p => Block.previousBlockHash block = BlockModel.hash p
  end ->
  save_fan_out updaters context block prevBlockModel
    (aggregatedSystemFee_of block prevBlockModel) (World.ext w) = Ok (inner, e4) ->
  let row := block_row block prevBlockModel (systemFee_of block)
               (aggregatedSystemFee_of block prevBlockModel) in
  (forall existing e5,
      Db.insert_fault (Context.db context) (Block.index block) = None ->
      World.blocks w !! Block.index block = Some existing ->
      BlockUpdaters.processedIndex_save updaters inner (Block.index block) e4 = Ok e5 ->
      insertAndReturn context (World.blocks w) row = Err UniqueViolation /\
      save updaters (S fuel) w context block
      = Some (Ok (World.mk (World.blocks w) e5,
                  Context.with_tip inner (Some existing) (BlockModel.id existing)))) /\
  (forall msg,
      Db.insert_fault (Context.db context) (Block.index block) = Some msg ->
      insertAndReturn context (World.blocks w) row = Err (OtherError msg) /\
      save updaters (S fuel) w context block = Some (Err (OtherError msg))).
Proof.
  intros Hidx Hprev Hlink Hfan row.
  rewrite (save_append fuel w context block prevBlockModel Hidx Hprev Hlink).
  unfold append. fold row. split.
  - intros existing e5 Hfault Hrow Hcursor.
    destruct (insertAndReturn_conflict context (World.blocks w) row existing Hfault Hrow)
      as [Hins Hfetch].
    split; [exact Hins|].
    rewrite Hfetch. simpl. rewrite Hfan. simpl. now rewrite Hcursor.
  - intros msg Hfault. split.
    + unfold insertAndReturn.
      change (BlockModel.id row) with (Block.index block). now rewrite Hfault.
    + now rewrite (insertAndReturn_fault context (World.blocks w) row msg Hfault).
Qed.

(** What [revert] returns: the row is deleted, and the context is rebuilt
    from the row found by [getPreviousBlockModel] at [id - 1]. *)
Lemma revert_result w context blockModel e4 e5 :
  revert_fan_out updaters context blockModel
    (getPreviousBlockModel w context (BlockModel.id blockModel)) (World.ext w) = Ok e4 ->
  BlockUpdaters.processedIndex_revert updaters context (BlockModel.id blockModel) e4
  = Ok e5 ->
  let prevPrevBlockModel := World.blocks w !! (BlockModel.id blockModel - 1 - 1) in
  revert updaters w context blockModel
  = Ok (World.mk (delete (BlockModel.id blockModel) (World.blocks w)) e5,
        Context.with_tip context prevPrevBlockModel
          (match prevPrevBlockModel with
           | None => -1
           | Some p => BlockModel.id p
           end)).
Proof.
  intros Hfan Hcursor prevPrev. unfold revert. rewrite Hfan. simpl.
  rewrite Hcursor. simpl. unfold getPreviousBlockModel. simpl.
  rewrite lookup_delete_ne by lia. reflexivity.
Qed.

(** Reverting the row a fresh append has just inserted gives the block
    table back. *)
Lemma revert_after_append_blocks w context block prevBlockModel w1 context1 row w2 context2 :
  World.blocks w !! Block.index block = None ->
  append updaters w context block prevBlockModel = Ok (w1, context1) ->
  Context.prevBlock context1 = Some row ->
  revert updaters w1 context1 row = Ok (w2, context2) ->
  World.blocks w2 = World.blocks w /\
  Context.prevBlock context2 = World.blocks w !! (Block.index block - 2).
Proof.
  intros Hfree Happ Hrow Hrev.
  destruct (append_fresh _ _ _ _ _ _ Hfree Happ) as (Hblocks & Hprev & _).
  rewrite Hprev in Hrow. injection Hrow as <-.
  unfold revert in Hrev.
  destruct (revert_fan_out _ _ _ _ _) as [e4|]; [|discriminate]. simpl in Hrev.
  destruct (BlockUpdaters.processedIndex_revert _ _ _ _) as [e5|]; [|discriminate].
  simpl in Hrev. injection Hrev as <- <-. simpl. unfold getPreviousBlockModel. simpl.
  rewrite Hblocks, delete_insert_eq. split.
  - now apply delete_id.
  - rewrite lookup_delete_ne by lia. f_equal. lia.
Qed.

Lemma revert_reliable_ok w context blockModel :
  revert_reliable updaters (Context.systemFee context) ->
  exists e4 e5,
    revert_fan_out updaters context blockModel
      (getPreviousBlockModel w context (BlockModel.id blockModel)) (World.ext w) = Ok e4 /\
    BlockUpdaters.processedIndex_revert updaters context (BlockModel.id blockModel) e4
    = Ok e5.
Proof.
  intros (Hledger & Haddr & Htx & Hprev & Hcursor). unfold revert_fan_out.
  destruct (Haddr context [BlockModel.next_validator_address_id blockModel]
              (BlockModel.id blockModel) (World.ext w)) as [e1 ->].
  destruct (Htx context blockModel e1) as [e2 H2]. simpl. rewrite H2. simpl.
  destruct (Hledger (BlockModel.id blockModel) e2) as [e3 H3]. rewrite H3. simpl.
  destruct (Hprev context (getPreviousBlockModel w context (BlockModel.id blockModel)) e3)
    as [e4 H4].
  destruct (Hcursor context (BlockModel.id blockModel) e4) as [e5 H5].
  exists e4, e5. now split.
Qed.

Lemma fold_plus_exact {A : Type} (f : A -> BigNumber.t) (g : A -> Z) (xs : list A) :
  Forall (fun x => BigNumber.eqv (BigNumber.of_fixed8 (g x)) (f x)) xs ->
  forall acc u,
    BigNumber.eqv (BigNumber.of_fixed8 u) acc ->
    BigNumber.eqv (BigNumber.of_fixed8 (u + foldr (fun x n => g x + n) 0 xs))
      (fold_left (fun fee x => BigNumber.plus fee (f x)) xs acc).
Proof.
  induction 1 as [|x xs Hx _ IH]; intros acc u Hacc; simpl.
  - now rewrite Z.add_0_r.
  - rewrite Z.add_assoc. apply IH. now apply plus_exact.
Qed.

Lemma systemFee_of_exact block :
  Forall (fun tx => BigNumber.fits8 (Tx.systemFee tx)) (Block.transactions block) ->
  BigNumber.eqv (BigNumber.of_fixed8 (fee_units block)) (systemFee_of block).
Proof.
  intros Hfit. unfold fee_units.
  pose proof (fold_plus_exact Tx.systemFee (fun tx => BigNumber.toFixed8 (Tx.systemFee tx))
                (Block.transactions block)) as Hsum.
  assert (Hall : Forall (fun tx =>
            BigNumber.eqv (BigNumber.of_fixed8 (BigNumber.toFixed8 (Tx.systemFee tx)))
              (Tx.systemFee tx)) (Block.transactions block)).
  { eapply Forall_impl; [exact Hfit|]. intros tx. apply fits8_exact. }
  specialize (Hsum Hall _ 0 ZERO_exact).
  unfold systemFee_of, sum_fees.
  now rewrite (toFixed8_exact _ _ Hsum).
Qed.

Lemma exact_total_exact chain :
  fees_fit8 chain ->
  BigNumber.eqv (BigNumber.of_fixed8 (total_units chain)) (exact_total chain).
Proof.
  intros Hfit.
  change (total_units chain) with (0 + total_units chain).
  apply (fold_plus_exact systemFee_of fee_units chain); [|exact ZERO_exact].
  eapply Forall_impl; [exact Hfit|]. intros block. apply systemFee_of_exact.
Qed.

Lemma total_units_snoc done block :
  total_units (done ++ [block]) = total_units done + fee_units block.
Proof.
  unfold total_units. induction done as [|b done IH]; simpl; [lia|].
  rewrite IH. lia.
Qed.

Lemma fees_fit8_take chain n : fees_fit8 chain -> fees_fit8 (take n chain).
Proof. apply Forall_take. Qed.

Lemma append_reliable d l w context block prevBlockModel :
  save_reliable updaters d l ->
  Context.db context = d ->
  Context.systemFee context = l ->
  World.blocks w !! Block.index block = None ->
  let row := block_row block prevBlockModel (systemFee_of block)
               (aggregatedSystemFee_of block prevBlockModel) in
  exists inner e5,
    append updaters w context block prevBlockModel
    = Ok (World.mk (<[Block.index block := row]> (World.blocks w)) e5,
          Context.with_tip inner (Some row) (Block.index block)) /\
    Context.db inner = d /\ Context.systemFee inner = l.
Proof.
  intros (Hdb & Hledger & Haddr & Hprev & Hcursor & Htx) Hd Hl Hfree row.
  unfold append. fold row.
  rewrite insertAndReturn_fresh; [|rewrite Hd; apply Hdb|exact Hfree].
  simpl. unfold save_fan_out.
  destruct (Htx context block (World.ext w)) as (inner & e1 & -> & Hd' & Hl'). simpl.
  destruct (Haddr context [validator_address block] e1) as [e2 ->]. simpl.
  rewrite Hl.
  destruct (Hledger (Block.index block)
              (BigNumber.toFixed8 (aggregatedSystemFee_of block prevBlockModel)) e2)
    as [e3 ->]. simpl.
  destruct (Hprev context block prevBlockModel e3) as [e4 ->]. simpl.
  destruct (Hcursor inner (Block.index block) e4) as [e5 ->]. simpl.
  exists inner, e5. repeat split; congruence.
Qed.

(** Appending the next block of a linked chain keeps the ledger invariant. *)
Lemma save_extends d l fuel w context done block :
  save_reliable updaters d l ->
  ingested d l w context done ->
  Block.index block = Z.of_nat (length done) ->
  match last done with
  | None => True
  | Some b => Block.previousBlockHash block = Block.hash b
  end ->
  Forall (fun tx => BigNumber.fits8 (Tx.systemFee tx)) (Block.transactions block) ->
  exists w' context',
    save updaters (S fuel) w context block = Some (Ok (w', context')) /\
    ingested d l w' context' (done ++ [block]).
Proof.
  intros Hrel (Hheight & Hd & Hl & Hfree & Hrows) Hidx Hlink Hfit.
  set (prevBlockModel := getPreviousBlockModel w context (Block.index block)).
  assert (Hprev :
    match prevBlockModel with
    | None => done = []
    | Some p =>
        Block.previousBlockHash block = BlockModel.hash p /\
        BlockModel.aggregated_system_fee p = total_units done
    end).
  { subst prevBlockModel. unfold getPreviousBlockModel. rewrite Hidx.
    rewrite last_lookup in Hlink.
    destruct done as [|b0 done0] eqn:Hdone.
    - rewrite Hfree by (simpl; lia). reflexivity.
    - rewrite <- Hdone in *.
      assert (Hlen : (0 < length done)%nat) by (rewrite Hdone; simpl; lia).
      destruct (done !! Nat.pred (length done)) as [b|] eqn:Hb.
      + destruct (Hrows _ _ Hb) as (row & Hrow & Hhash & _ & Hagg).
        replace (Z.of_nat (length done) - 1) with (Z.of_nat (Nat.pred (length done)))
          by lia.
        rewrite Hrow. split; [congruence|].
        rewrite Hagg. f_equal. apply take_ge. lia.
      + apply lookup_ge_None in Hb. lia. }
  assert (Hlink' :
    match prevBlockModel with
    | None => True
    | Some p => Block.previousBlockHash block = BlockModel.hash p
    end) by (destruct prevBlockModel; [apply Hprev|exact I]).
  assert (Hnext : Block.index block = getCurrentHeight context + 1)
    by (unfold getCurrentHeight; lia).
  rewrite (save_append fuel w context block prevBlockModel Hnext eq_refl Hlink').
  assert (Hfresh : World.blocks w !! Block.index block = None)
    by (apply Hfree; lia).
  destruct (append_reliable d l w context block prevBlockModel Hrel Hd Hl Hfresh)
    as (inner & e5 & -> & Hd' & Hl').
  set (row := block_row block prevBlockModel _ _).
  eexists _, _. split; [reflexivity|].
  assert (Hagg : BlockModel.aggregated_system_fee row = total_units (done ++ [block])).
  { rewrite total_units_snoc. subst row. cbn [block_row BlockModel.aggregated_system_fee].
    unfold aggregatedSystemFee_of. destruct prevBlockModel as [p|].
    - destruct Hprev as [_ <-]. apply toFixed8_exact, plus_exact.
      + apply of_fixed8_exact.
      + now apply systemFee_of_exact.
    - rewrite Hprev. reflexivity. }
  unfold ingested. cbn [World.blocks Context.with_tip Context.currentHeight
                         Context.db Context.systemFee].
  rewrite length_app. simpl. repeat split; [lia|exact Hd'|exact Hl'| |].
  - intros k Hk. rewrite lookup_insert_ne by lia. apply Hfree. lia.
  - intros n b Hb. apply lookup_snoc_Some in Hb as [[Hn Hb]|[-> <-]].
    + destruct (Hrows _ _ Hb) as (r & Hr & Hhash & Hfee & Hsum).
      exists r. rewrite lookup_insert_ne by lia.
      rewrite take_app_le by lia. now repeat split.
    + exists row. rewrite <- Hidx, lookup_insert_eq.
      split; [reflexivity|]. split; [reflexivity|]. split; [reflexivity|].
      rewrite Hagg. f_equal. symmetry. apply take_ge. rewrite length_app. simpl. lia.
Qed.

Lemma save_all_extends d l fuel rest :
  save_reliable updaters d l ->
  forall done w context,
    ingested d l w context done ->
    linked (Z.of_nat (length done)) (Block.hash <$> last done) rest ->
    fees_fit8 rest ->
    exists w' context',
      save_all updaters (S fuel) w context rest = Some (Ok (w', context')) /\
      ingested d l w' context' (done ++ rest).
Proof.
  intros Hrel. induction rest as [|block rest IH]; intros done w context Hinv Hlinked Hfit.
  - exists w, context. rewrite app_nil_r. now split.
  - destruct Hlinked as (Hidx & Hlink & Hrest).
    apply Forall_cons in Hfit as [Hfit Hfits].
    destruct (save_extends d l fuel w context done block Hrel Hinv Hidx) as
      (w1 & c1 & Hsave & Hinv1); [|exact Hfit|].
    { destruct (last done); [exact Hlink|exact I]. }
    destruct (IH (done ++ [block]) w1 c1 Hinv1) as (w2 & c2 & Hrun & Hinv2);
      [|exact Hfits|].
    { rewrite last_snoc, length_app. simpl.
      replace (Z.of_nat (length done + 1)) with (Z.of_nat (length done) + 1) by lia.
      exact Hrest. }
    exists w2, c2. split.
    + cbn [save_all]. rewrite Hsave. exact Hrun.
    + now rewrite <- app_assoc in Hinv2.
Qed.

(** C4 (amended): blocks with contiguous indices from 0 and matching
    previous-hash links, whose transaction fees have at most eight fractional
    digits, are all appended, and afterwards the stored aggregated system fee
    at every index n is the one at n - 1 (0 below the first block) plus the
    block's fee, and equals the exact sum of the per-block fees of the
    indices 0..n. *)
Theorem save_all_aggregated_fee d l fuel w context chain :
  save_reliable updaters d l ->
  Context.db context = d ->
  Context.systemFee context = l ->
  World.blocks w = ∅ ->
  getCurrentHeight context = -1 ->
  linked 0 None chain ->
  fees_fit8 chain ->
  exists w' context',
    save_all updaters (S fuel) w context chain = Some (Ok (w', context')) /\
    aggregated_at w' (-1) = 0 /\
    forall n block, chain !! n = Some block ->
      (exists row,
          World.blocks w' !! Z.of_nat n = Some row /\
          BigNumber.eqv (BigNumber.of_fixed8 (BlockModel.system_fee row))
            (systemFee_of block)) /\
      aggregated_at w' (Z.of_nat n)
      = aggregated_at w' (Z.of_nat n - 1) + fee_units block /\
      BigNumber.eqv (BigNumber.of_fixed8 (aggregated_at w' (Z.of_nat n)))
        (exact_total (take (S n) chain)).
Proof.
  intros Hrel Hd Hl Hempty Hheight Hlinked Hfit.
  assert (Hinv : ingested d l w context []).
  { unfold ingested. simpl. repeat split; try assumption.
    - intros k _. rewrite Hempty. apply lookup_empty.
    - intros n block Hn. discriminate. }
  destruct (save_all_extends d l fuel chain Hrel [] w context Hinv Hlinked Hfit)
    as (w' & context' & Hrun & (_ & _ & _ & Hfree & Hrows)).
  simpl in Hrows, Hfree.
  exists w', context'. split; [exact Hrun|].
  assert (Hat : forall n block, chain !! n = Some block ->
            aggregated_at w' (Z.of_nat n) = total_units (take (S n) chain)).
  { intros n block Hn. destruct (Hrows n block Hn) as (row & Hrow & _ & _ & Hagg).
    unfold aggregated_at. now rewrite Hrow. }
  split; [unfold aggregated_at; rewrite Hfree by lia; reflexivity|].
  intros n block Hn.
  destruct (Hrows n block Hn) as (row & Hrow & _ & Hfee & _).
  assert (Hblock : Forall (fun tx => BigNumber.fits8 (Tx.systemFee tx))
                     (Block.transactions block)).
  { unfold fees_fit8 in Hfit. rewrite Forall_lookup in Hfit. exact (Hfit n block Hn). }
  split; [|split].
  - exists row. split; [exact Hrow|]. rewrite Hfee. now apply systemFee_of_exact.
  - rewrite (Hat n block Hn), (take_S_r chain n block Hn), total_units_snoc.
    f_equal. destruct n as [|m].
    + unfold aggregated_at. rewrite Hfree by lia. reflexivity.
    + assert (Hm : is_Some (chain !! m)).
      { apply lookup_lt_is_Some. apply lookup_lt_Some in Hn. lia. }
      destruct Hm as [bm Hm].
      replace (Z.of_nat (S m) - 1) with (Z.of_nat m) by lia.
      now rewrite (Hat m bm Hm).
  - rewrite (Hat n block Hn). apply exact_total_exact, fees_fit8_take, Hfit.
Qed.

(** C1 (amended): A0..A5 are committed at height 5; the client serves the
    canonical chain B0..B5, whose blocks are linked by their previous hashes,
    which agrees with the local one at 0..2 and differs from it at 3, 4 and
    5; storage and collaborators do not fail.  Then a canonical block of
    index 3 or 4 changes nothing; and handing B5 to [save] succeeds, leaves
    no row at 5, leaves the rows 0..2 in place with the hashes of B0..B2, and
    returns height 3, not 5.  What is stored at 3 and 4 afterwards is left
    open. *)
Theorem save_fork_single_call w context (B : Z -> Block.t) :
  save_reliable updaters (Context.db context) (Context.systemFee context) ->
  revert_reliable updaters (Context.systemFee context) ->
  getCurrentHeight context = 5 ->
  (forall i, 0 <= i <= 5 ->
     exists row, World.blocks w !! i = Some row /\ BlockModel.id row = i) ->
  (forall i, 0 <= i <= 5 -> Block.index (B i) = i) ->
  (forall i, 0 <= i <= 5 -> Client.getBlock (Context.client context) i = Ok (B i)) ->
  (forall i, 3 <= i <= 5 -> Block.previousBlockHash (B i) = Block.hash (B (i - 1))) ->
  (forall i, 0 <= i <= 2 ->
     BlockModel.hash <$> World.blocks w !! i = Some (Block.hash (B i))) ->
  (forall i, 3 <= i <= 5 ->
     BlockModel.hash <$> World.blocks w !! i <> Some (Block.hash (B i))) ->
  (forall fuel i, 3 <= i <= 4 ->
     save updaters (S fuel) w context (B i) = Some (Ok (w, context))) /\
  (forall fuel, exists w' context',
     save updaters (S (S (S (S fuel)))) w context (B 5) = Some (Ok (w', context')) /\
     World.blocks w' !! 5 = None /\
     (forall i, 0 <= i <= 2 ->
        BlockModel.hash <$> World.blocks w' !! i = Some (Block.hash (B i))) /\
     getCurrentHeight context' = 3).
Proof.
  intros _ Hrel Hheight Hrows Hidx _ _ Hcommon Hdiff. split.
  - intros fuel i Hi. apply save_fall_through; rewrite Hidx, Hheight by lia; lia.
  - intros fuel.
    destruct (Hrows 5 ltac:(lia)) as (row5 & Hrow5 & Hid5).
    destruct (Hrows 3 ltac:(lia)) as (row3 & Hrow3 & Hid3).
    destruct (revert_reliable_ok w context row5 Hrel) as (e4 & e5 & Hfan & Hcursor).
    pose proof (revert_result w context row5 e4 e5 Hfan Hcursor) as Hrevert.
    cbn zeta in Hrevert. rewrite Hid5 in Hrevert.
    change (5 - 1 - 1) with 3 in Hrevert. rewrite Hrow3, Hid3 in Hrevert.
    eexists _, _. split; [|split; [|split]].
    + rewrite (save_replace (S (S (S fuel))) w context (B 5) row5).
      * rewrite Hrevert.
        apply save_fall_through; rewrite Hidx by lia; cbn; lia.
      * rewrite Hidx by lia. now rewrite Hheight.
      * now rewrite Hidx by lia.
      * intros Heq. apply (Hdiff 5 ltac:(lia)). rewrite Hrow5. simpl. now rewrite Heq.
    + cbn. apply lookup_delete_eq.
    + intros i Hi. cbn. rewrite lookup_delete_ne by lia. now apply Hcommon.
    + reflexivity.
Qed.

End BlockUpdaterFacts.

(** * The block updater on concrete chains *)

Lemma null_save_reliable : save_reliable null_updaters null_db null_systemFee.
Proof. repeat split; intros; repeat eexists. Qed.

Lemma null_revert_reliable : revert_reliable null_updaters null_systemFee.
Proof. repeat split; intros; eexists; reflexivity. Qed.

Example local_history_committed :
  replay chainA []
  = Some (Ok (5, [Some "h0"; Some "h1"; Some "h2"; Some "a3"; Some "a4"; Some "a5"])).
Proof. vm_compute. reflexivity. Qed.

(** C1, counterexample: with A0..A5 committed and B canonical, handing B4 to
    [save] leaves height 5 over the hashes of A, and handing it B5 ends at
    height 3 with A3 and A4 still committed; in neither case does the call
    end at height 5 over the hashes of B. *)
Lemma save_fork_counterexample :
  replay chainA [canonical 4]
  = Some (Ok (5, [Some "h0"; Some "h1"; Some "h2"; Some "a3"; Some "a4"; Some "a5"])) /\
  replay chainA [canonical 5]
  = Some (Ok (3, [Some "h0"; Some "h1"; Some "h2"; Some "a3"; Some "a4"; None])) /\
  map (fun b => Some (Block.hash b)) chainB
  = [Some "h0"; Some "h1"; Some "h2"; Some "b3"; Some "b4"; Some "b5"].
Proof. repeat split; vm_compute; reflexivity. Qed.

Lemma save_fork_single_call_witness :
  (forall fuel i, 3 <= i <= 4 ->
     save null_updaters (S fuel) (fst localA) (snd localA) (canonicalZ i)
     = Some (Ok (fst localA, snd localA))) /\
  (forall fuel, exists w' context',
     save null_updaters (S (S (S (S fuel)))) (fst localA) (snd localA) (canonicalZ 5)
     = Some (Ok (w', context')) /\
     World.blocks w' !! 5 = None /\
     (forall i, 0 <= i <= 2 ->
        BlockModel.hash <$> World.blocks w' !! i = Some (Block.hash (canonicalZ i))) /\
     getCurrentHeight context' = 3).
Proof.
  apply (save_fork_single_call null_updaters (fst localA) (snd localA) canonicalZ).
  - exact null_save_reliable.
  - exact null_revert_reliable.
  - vm_compute. reflexivity.
  - intros i Hi.
    assert (Hcases : i = 0 \/ i = 1 \/ i = 2 \/ i = 3 \/ i = 4 \/ i = 5) by lia.
    destruct Hcases as [->|[->|[->|[->|[->| ->]]]]];
      eexists; (split; [vm_compute; reflexivity|reflexivity]).
  - intros i Hi.
    assert (Hcases : i = 0 \/ i = 1 \/ i = 2 \/ i = 3 \/ i = 4 \/ i = 5) by lia.
    destruct Hcases as [->|[->|[->|[->|[->| ->]]]]]; reflexivity.
  - intros i Hi.
    assert (Hcases : i = 0 \/ i = 1 \/ i = 2 \/ i = 3 \/ i = 4 \/ i = 5) by lia.
    destruct Hcases as [->|[->|[->|[->|[->| ->]]]]]; vm_compute; reflexivity.
  - intros i Hi.
    assert (Hcases : i = 3 \/ i = 4 \/ i = 5) by lia.
    destruct Hcases as [->|[->| ->]]; vm_compute; reflexivity.
  - intros i Hi.
    assert (Hcases : i = 0 \/ i = 1 \/ i = 2) by lia.
    destruct Hcases as [->|[->| ->]]; vm_compute; reflexivity.
  - intros i Hi.
    assert (Hcases : i = 3 \/ i = 4 \/ i = 5) by lia.
    destruct Hcases as [->|[->| ->]]; vm_compute; discriminate.
Defined.

(** C2, the code at a failing input: with A0..A2 committed (height 2),
    reverting the row at 2 returns a context of height 0 that points at the
    row of index 0, although the row at 1 is still committed. *)
Theorem revert_context_two_back :
  exists w' context',
    revert null_updaters (fst localA2) (snd localA2) (row_at (fst localA2) 2)
    = Ok (w', context') /\
    getCurrentHeight (snd localA2) = 2 /\
    BlockModel.id (row_at (fst localA2) 2) = 2 /\
    getCurrentHeight context' = 0 /\
    BlockModel.hash <$> Context.prevBlock context' = Some "h0" /\
    BlockModel.hash <$> World.blocks w' !! 1 = Some "h1" /\
    World.blocks w' !! 2 = None.
Proof. eexists _, _. repeat split; vm_compute; reflexivity. Qed.

(** C3, the code at a failing input: with A0 committed (height 0), A1 is
    appended and its row reverted.  The block table is as before, but the
    returned context has height -1 and no previous block, and handing A1 to
    [save] again from there changes nothing: no row is committed at 1. *)
Theorem revert_after_save_context :
  exists w1 context1 w2 context2,
    save null_updaters 1 (fst localA0) (snd localA0) (nth 1 chainA dust_block)
    = Some (Ok (w1, context1)) /\
    getCurrentHeight context1 = 1 /\
    revert null_updaters w1 context1 (row_at w1 1) = Ok (w2, context2) /\
    World.blocks w2 = World.blocks (fst localA0) /\
    getCurrentHeight (snd localA0) = 0 /\
    BlockModel.hash <$> Context.prevBlock (snd localA0) = Some "h0" /\
    getCurrentHeight context2 = -1 /\
    Context.prevBlock context2 = None /\
    save null_updaters 8 w2 context2 (nth 1 chainA dust_block)
    = Some (Ok (w2, context2)) /\
    World.blocks w2 !! 1 = None.
Proof. eexists _, _, _, _. repeat split; vm_compute; reflexivity. Qed.

(** C4, counterexample: a first block whose only transaction has a system
    fee of 0.000000005 is appended with a stored aggregated fee of
    0.00000001, which is not the exact sum of the fees. *)
Lemma aggregated_fee_counterexample :
  exists w' context',
    save null_updaters 1 empty_world (start_context (chain_client [])) dust_block
    = Some (Ok (w', context')) /\
    linked 0 None [dust_block] /\
    aggregated_at w' 0 = 1 /\
    ~ BigNumber.eqv (BigNumber.of_fixed8 (aggregated_at w' 0)) (exact_total [dust_block]).
Proof.
  eexists _, _. split; [vm_compute; reflexivity|].
  split; [simpl; tauto|]. split; [vm_compute; reflexivity|].
  vm_compute. discriminate.
Qed.

Lemma chainA_fees_fit8 : fees_fit8 chainA.
Proof.
  unfold fees_fit8, chainA.
  repeat first [apply Forall_nil_2 | apply Forall_cons_2];
    exists 100000000; reflexivity.
Qed.

Lemma save_all_aggregated_fee_witness :
  exists w' context',
    save_all null_updaters 1 empty_world (start_context (chain_client chainB)) chainA
    = Some (Ok (w', context')) /\
    aggregated_at w' (-1) = 0 /\
    forall n block, chainA !! n = Some block ->
      (exists row,
          World.blocks w' !! Z.of_nat n = Some row /\
          BigNumber.eqv (BigNumber.of_fixed8 (BlockModel.system_fee row))
            (systemFee_of block)) /\
      aggregated_at w' (Z.of_nat n)
      = aggregated_at w' (Z.of_nat n - 1) + fee_units block /\
      BigNumber.eqv (BigNumber.of_fixed8 (aggregated_at w' (Z.of_nat n)))
        (exact_total (take (S n) chainA)).
Proof.
  apply (save_all_aggregated_fee null_updaters null_db null_systemFee 0%nat empty_world
           (start_context (chain_client chainB)) chainA).
  - exact null_save_reliable.
  - reflexivity.
  - reflexivity.
  - reflexivity.
  - reflexivity.
  - simpl. tauto.
  - exact chainA_fees_fit8.
Defined.

Example aggregated_fee_of_chainA :
  map (aggregated_at (fst localA)) [0; 1; 2; 3; 4; 5]
  = [100000000; 200000000; 300000000; 400000000; 500000000; 600000000].
Proof. vm_compute. reflexivity. Qed.

Lemma save_out_of_order_noop_witness :
  save null_updaters 1 (fst localA) (snd localA) (canonicalZ 3)
  = Some (Ok (fst localA, snd localA)).
Proof.
  apply (save_out_of_order_noop null_updaters 0%nat (fst localA) (snd localA)
           (canonicalZ 3));
    vm_compute; discriminate.
Defined.

Lemma save_stale_duplicate_noop_witness :
  save null_updaters 1 (fst localA) (snd localA) (nth 5 chainA dust_block)
  = Some (Ok (fst localA, snd localA)).
Proof.
  apply (proj1 (save_stale_duplicate_noop null_updaters) 0%nat (fst localA) (snd localA)
           (nth 5 chainA dust_block) (row_at (fst localA) 5));
    vm_compute; reflexivity.
Defined.

Example save_twice_same_row :
  replay (take 5 chainA) [nth 5 chainA dust_block; nth 5 chainA dust_block]
  = replay (take 5 chainA) [nth 5 chainA dust_block] /\
  aggregated_at (fst localA) 5 = 600000000.
Proof. split; vm_compute; reflexivity. Qed.

Lemma save_insert_or_fetch_witness :
  let context := Context.with_tip (snd localA) None 4 in
  let block := nth 5 chainA dust_block in
  World.blocks (fst localA) !! 5 = Some (row_at (fst localA) 5) /\
  save null_updaters 1 (fst localA) context block
  = Some (Ok (World.mk (World.blocks (fst localA)) tt,
              Context.with_tip context (Some (row_at (fst localA) 5)) 5)).
Proof.
  intros context block. split; [vm_compute; reflexivity|].
  refine (proj2 (proj1 (save_insert_or_fetch null_updaters 0%nat (fst localA) context block
                   (Some (row_at (fst localA) 4)) context tt _ _ _ _)
                 (row_at (fst localA) 5) tt _ _ _));
    vm_compute; reflexivity.
Defined.

(** * Properties of the extraction *)

Lemma prefix_spec (sub s : string) :
  String.prefix sub s = true <-> exists post, s = sub +:+ post.
Proof.
  revert s. induction sub as [|a sub IH]; intros s; simpl.
  - destruct s; split; eauto.
  - destruct s as [|b s]; simpl.
    + split; [discriminate|]. intros [post Hpost]. discriminate.
    + destruct (ascii_dec a b) as [->|Hne].
      * rewrite IH. split; intros [post Hpost]; exists post.
        -- simpl. now rewrite Hpost.
        -- simpl in Hpost. now injection Hpost.
      * split; [discriminate|]. intros [post Hpost]. simpl in Hpost.
        injection Hpost as Hab _. now destruct Hne.
Qed.

Lemma includes_unfold (s sub : string) :
  includes s sub
  = if String.prefix sub s then true
    else match s with
         | EmptyString => false
         | String _ rest => includes rest sub
         end.
Proof. destruct s; reflexivity. Qed.

(** [includes] is the substring test. *)
Lemma includes_spec (s sub : string) :
  includes s sub = true <-> exists pre post, s = pre +:+ sub +:+ post.
Proof.
  split.
  - induction s as [|c s IH]; rewrite includes_unfold.
    + destruct (String.prefix sub EmptyString) eqn:Hp; [|discriminate].
      intros _. apply prefix_spec in Hp as [post Hpost]. now exists EmptyString, post.
    + destruct (String.prefix sub (String c s)) eqn:Hp.
      * intros _. apply prefix_spec in Hp as [post Hpost]. now exists EmptyString, post.
      * intros Hin. destruct (IH Hin) as (pre & post & ->).
        now exists (String c pre), post.
  - intros (pre & post & ->). induction pre as [|c pre IH]; rewrite includes_unfold.
    + assert (Hp : String.prefix sub (EmptyString +:+ sub +:+ post) = true)
        by (apply prefix_spec; eauto).
      now rewrite Hp.
    + destruct (String.prefix sub (String c pre +:+ sub +:+ post)); [reflexivity|].
      exact IH.
Qed.

Example NEP5_ATTRIBUTES_value :
  NEP5_ATTRIBUTES
  = ["746f74616c537570706c79"; "6e616d65"; "73796d626f6c"; "646563696d616c73";
     "62616c616e63654f66"; "7472616e73666572"]%string.
Proof. reflexivity. Qed.

Section ExtractionFacts.

Context {E : Type}.
Variable BigNumber_toString : BigNumber.t -> string.
Variable BigNumber_toNumber : BigNumber.t -> Z.
Variable JSON_stringify : string -> string.
Variable JSON_stringify_array : list string -> string.
Variable add0x : string -> string.

Local Abbreviation getContractAndAsset_ :=
  (getContractAndAsset BigNumber_toString BigNumber_toNumber JSON_stringify
     JSON_stringify_array add0x).

Local Abbreviation getContracts_ :=
  (getContracts BigNumber_toString BigNumber_toNumber JSON_stringify
     JSON_stringify_array add0x).

Local Abbreviation getAsset_ := (getAsset BigNumber_toString JSON_stringify).

Lemma checkIsNEP5_spec (context : Context.t E) (contract : Contract.t) :
  checkIsNEP5 context contract = true <-> nep5_condition context contract.
Proof.
  unfold checkIsNEP5, nep5_condition, NEP5_ATTRIBUTES.
  assert (Hall : forall l,
    forallb (fun attribute => includes (Contract.script contract) attribute)
      (map hex_encode l) = true
    <-> Forall (fun method =>
                  exists pre post,
                    Contract.script contract = pre +:+ hex_encode method +:+ post) l).
  { induction l as [|m l IH]; simpl.
    - split; [constructor|reflexivity].
    - rewrite andb_true_iff, IH, includes_spec, Forall_cons. reflexivity. }
  case_bool_decide as Hblack.
  - split; [discriminate|]. intros [Hnot _]. contradiction.
  - rewrite Hall. tauto.
Qed.

(** The two shapes of what [getContractAndAsset] resolves to. *)
Lemma getContractAndAsset_unknown (context : Context.t E) transaction contract
    blockIndex blockTime :
  checkIsNEP5 context contract = false ->
  getContractAndAsset_ context transaction contract blockIndex blockTime
  = Ok (mkContractAndAsset None
          (contract_model BigNumber_toString JSON_stringify_array transaction contract
             blockIndex blockTime false) None).
Proof. intros Hno. unfold getContractAndAsset. now rewrite Hno. Qed.

Lemma getContractAndAsset_token (context : Context.t E) transaction contract
    blockIndex blockTime r :
  checkIsNEP5 context contract = true ->
  getContractAndAsset_ context transaction contract blockIndex blockTime = Ok r ->
  exists contractABI name symbol decimals totalSupply,
    let contractModel :=
      contract_model BigNumber_toString JSON_stringify_array transaction contract
        blockIndex blockTime true in
    let nep5Contract :=
      Client.smartContract (Context.client context) (add0x (Contract.hash contract))
        contractABI in
    Client.abi_NEP5 (Context.client context) (add0x (Contract.hash contract))
    = Ok contractABI /\
    ReadSmartContract.name nep5Contract = Ok name /\
    ReadSmartContract.symbol nep5Contract = Ok symbol /\
    ReadSmartContract.decimals nep5Contract = Ok decimals /\
    catch (ReadSmartContract.totalSupply nep5Contract) (fun _ => Ok (BigNumber.mk 0 0))
    = Ok totalSupply /\
    r = mkContractAndAsset
          (Some (nep5_asset BigNumber_toString BigNumber_toNumber JSON_stringify
                   transaction contractModel blockTime name symbol decimals totalSupply))
          contractModel (Some nep5Contract).
Proof.
  intros Hyes. unfold getContractAndAsset. rewrite Hyes.
  cbn [contract_model ContractModel.id].
  destruct (Client.abi_NEP5 _ _) as [contractABI|]; [|discriminate]. simpl.
  destruct (ReadSmartContract.name _) as [name|] eqn:Hname; [|discriminate]. simpl.
  destruct (ReadSmartContract.symbol _) as [symbol|] eqn:Hsymbol; [|discriminate]. simpl.
  destruct (ReadSmartContract.decimals _) as [decimals|] eqn:Hdecimals; [|discriminate].
  simpl.
  destruct (catch _ _) as [totalSupply|] eqn:Hsupply; [|discriminate]. simpl.
  intros [= <-]. exists contractABI, name, symbol, decimals, totalSupply.
  now repeat split.
Qed.

(** C5: a contract is classified as a token contract, and comes with an
    asset row of type NEP5, exactly when it is not blacklisted and its script
    contains the hex encodings of the six method names; otherwise it is
    classified as unknown and comes with no asset row. *)
Theorem nep5_classification (context : Context.t E) transaction contract
    blockIndex blockTime :
  (checkIsNEP5 context contract = true <-> nep5_condition context contract) /\
  (forall r,
      getContractAndAsset_ context transaction contract blockIndex blockTime = Ok r ->
      ((ContractModel.type (ca_contract r) = NEP5_CONTRACT_TYPE /\
        exists asset, ca_asset r = Some asset /\ AssetModel.type asset = "NEP5")
       <-> nep5_condition context contract) /\
      (~ nep5_condition context contract ->
       ContractModel.type (ca_contract r) = UNKNOWN_CONTRACT_TYPE /\
       ca_asset r = None)) /\
  (~ nep5_condition context contract ->
   exists r, getContractAndAsset_ context transaction contract blockIndex blockTime = Ok r) /\
  (nep5_condition context contract ->
   forall contractABI name symbol decimals,
     let nep5Contract :=
       Client.smartContract (Context.client context) (add0x (Contract.hash contract))
         contractABI in
     Client.abi_NEP5 (Context.client context) (add0x (Contract.hash contract))
     = Ok contractABI ->
     ReadSmartContract.name nep5Contract = Ok name ->
     ReadSmartContract.symbol nep5Contract = Ok symbol ->
     ReadSmartContract.decimals nep5Contract = Ok decimals ->
     exists r, getContractAndAsset_ context transaction contract blockIndex blockTime = Ok r).
Proof.
  pose proof (checkIsNEP5_spec context contract) as Hspec.
  split; [exact Hspec|]. split; [|split].
  - intros r Hr. destruct (checkIsNEP5 context contract) eqn:Hcheck.
    + destruct (getContractAndAsset_token _ _ _ _ _ _ Hcheck Hr)
        as (abi & name & symbol & decimals & supply & _ & _ & _ & _ & _ & ->).
      simpl. split.
      * split; [intros _; now apply Hspec|]. intros _. split; [reflexivity|]. eauto.
      * intros Hnot. exfalso. apply Hnot. now apply Hspec.
    + rewrite getContractAndAsset_unknown in Hr by exact Hcheck.
      injection Hr as <-. simpl. split.
      * split; [intros [Habs _]; discriminate|].
        intros Hcond. apply Hspec in Hcond. discriminate.
      * intros _. now split.
  - intros Hnot. destruct (checkIsNEP5 context contract) eqn:Hcheck.
    + exfalso. apply Hnot. now apply Hspec.
    + rewrite getContractAndAsset_unknown by exact Hcheck. eauto.
  - intros Hcond contractABI name symbol decimals nep5Contract Habi Hname Hsymbol Hdecimals.
    apply Hspec in Hcond. unfold getContractAndAsset. rewrite Hcond.
    cbn [contract_model ContractModel.id]. rewrite Habi. simpl.
    fold nep5Contract. rewrite Hname, Hsymbol, Hdecimals. simpl.
    destruct (ReadSmartContract.totalSupply nep5Contract); simpl; eauto.
Qed.

(** C6: for a contract classified as a token contract, a failing
    [totalSupply] call raises nothing and the asset row gets the amount "0"
    (the decimal zero printing as "0"); a failing [name], [symbol] or
    [decimals] call makes the extraction fail with that call's error. *)
Theorem totalSupply_fault_tolerance (context : Context.t E) transaction contract
    blockIndex blockTime contractABI :
  checkIsNEP5 context contract = true ->
  Client.abi_NEP5 (Context.client context) (add0x (Contract.hash contract))
  = Ok contractABI ->
  let nep5Contract :=
    Client.smartContract (Context.client context) (add0x (Contract.hash contract))
      contractABI in
  (forall error name symbol decimals,
      BigNumber_toString (BigNumber.mk 0 0) = "0"%string ->
      ReadSmartContract.totalSupply nep5Contract = Err error ->
      ReadSmartContract.name nep5Contract = Ok name ->
      ReadSmartContract.symbol nep5Contract = Ok symbol ->
      ReadSmartContract.decimals nep5Contract = Ok decimals ->
      exists r asset,
        getContractAndAsset_ context transaction contract blockIndex blockTime = Ok r /\
        ca_asset r = Some asset /\
        AssetModel.amount asset = "0"%string) /\
  (forall error,
      ReadSmartContract.name nep5Contract = Err error ->
      getContractAndAsset_ context transaction contract blockIndex blockTime = Err error) /\
  (forall error name,
      ReadSmartContract.name nep5Contract = Ok name ->
      ReadSmartContract.symbol nep5Contract = Err error ->
      getContractAndAsset_ context transaction contract blockIndex blockTime = Err error) /\
  (forall error name symbol,
      ReadSmartContract.name nep5Contract = Ok name ->
      ReadSmartContract.symbol nep5Contract = Ok symbol ->
      ReadSmartContract.decimals nep5Contract = Err error ->
      getContractAndAsset_ context transaction contract blockIndex blockTime = Err error).
Proof.
  intros Hcheck Habi nep5Contract.
  unfold getContractAndAsset. rewrite Hcheck.
  cbn [contract_model ContractModel.id]. rewrite Habi. simpl. fold nep5Contract.
  repeat split.
  - intros error name symbol decimals Hzero Hsupply Hname Hsymbol Hdecimals.
    rewrite Hname, Hsymbol, Hdecimals, Hsupply. simpl.
    eexists _, _. split; [reflexivity|]. split; [reflexivity|]. exact Hzero.
  - intros error Hname. now rewrite Hname.
  - intros error name Hname Hsymbol. now rewrite Hname, Hsymbol.
  - intros error name symbol Hname Hsymbol Hdecimals.
    now rewrite Hname, Hsymbol, Hdecimals.
Qed.

(** C10: an asset row built from a registration or invocation descriptor
    has, as its symbol, the JSON text of the asset's name, the same value as
    its [name_raw].  The token path does store a queried symbol: for a
    contract classified as a token whose descriptor, [name], [symbol] and
    [decimals] calls succeed, the extraction returns an asset row whose
    symbol is the queried symbol as it was returned and whose [name_raw] is
    the JSON text of the queried name; and every asset row the token path
    returns is of that kind. *)
Theorem asset_symbol_is_name :
  (forall transaction blockTime row,
      getAsset_ transaction blockTime = Some row ->
      exists asset,
        asset_of transaction = Some asset /\
        AssetModel.symbol row = JSON_stringify (Asset.name asset) /\
        AssetModel.symbol row = AssetModel.name_raw row) /\
  (forall (context : Context.t E) transaction contract blockIndex blockTime r row,
      getContractAndAsset_ context transaction contract blockIndex blockTime = Ok r ->
      ca_asset r = Some row ->
      exists contractABI name,
        let nep5Contract :=
          Client.smartContract (Context.client context) (add0x (Contract.hash contract))
            contractABI in
        Client.abi_NEP5 (Context.client context) (add0x (Contract.hash contract))
        = Ok contractABI /\
        ReadSmartContract.symbol nep5Contract = Ok (AssetModel.symbol row) /\
        ReadSmartContract.name nep5Contract = Ok name /\
        AssetModel.name_raw row = JSON_stringify name) /\
  (forall (context : Context.t E) transaction contract blockIndex blockTime
          contractABI name symbol decimals,
      let nep5Contract :=
        Client.smartContract (Context.client context) (add0x (Contract.hash contract))
          contractABI in
      checkIsNEP5 context contract = true ->
      Client.abi_NEP5 (Context.client context) (add0x (Contract.hash contract))
      = Ok contractABI ->
      ReadSmartContract.name nep5Contract = Ok name ->
      ReadSmartContract.symbol nep5Contract = Ok symbol ->
      ReadSmartContract.decimals nep5Contract = Ok decimals ->
      exists r row,
        getContractAndAsset_ context transaction contract blockIndex blockTime = Ok r /\
        ca_asset r = Some row /\
        AssetModel.symbol row = symbol /\
        AssetModel.name_raw row = JSON_stringify name).
Proof.
  split; [|split].
  - intros transaction blockTime row Hrow. unfold getAsset in Hrow.
    destruct (asset_of transaction) as [asset|]; [|discriminate].
    injection Hrow as <-. exists asset. now repeat split.
  - intros context transaction contract blockIndex blockTime r row Hr Hrow.
    destruct (checkIsNEP5 context contract) eqn:Hcheck.
    + destruct (getContractAndAsset_token _ _ _ _ _ _ Hcheck Hr)
        as (abi & name & symbol & decimals & supply & Habi & Hname & Hsymbol & _ & _ & ->).
      simpl in Hrow. injection Hrow as <-.
      exists abi, name. now repeat split.
    + rewrite getContractAndAsset_unknown in Hr by exact Hcheck.
      injection Hr as <-. discriminate.
  - intros context transaction contract blockIndex blockTime contractABI name symbol
      decimals nep5Contract Hcheck Habi Hname Hsymbol Hdecimals.
    unfold getContractAndAsset. rewrite Hcheck.
    cbn [contract_model ContractModel.id]. rewrite Habi. simpl. fold nep5Contract.
    rewrite Hname, Hsymbol, Hdecimals. simpl.
    destruct (ReadSmartContract.totalSupply nep5Contract); simpl;
      eexists _, _; (split; [reflexivity|]); now repeat split.
Qed.

End ExtractionFacts.

(** * The extraction on concrete contracts *)

Example token_contract_classified :
  checkIsNEP5 token_context token_contract = true /\
  checkIsNEP5 token_context plain_contract = false /\
  checkIsNEP5
    (Context.mk null_db token_client null_systemFee (-1) None ∅ {[ "c0ffee"%string ]})
    token_contract = false.
Proof. repeat split; vm_compute; reflexivity. Qed.

Example publish_token_rows :
  exists cs row model,
    getContracts decimal_toString integer_toNumber quoted quoted_array prefix_0x
      token_context (publish_tx token_contract) 10 1000 = Ok cs /\
    cs_assets cs = [row] /\ cs_contracts cs = [model] /\
    AssetModel.type row = "NEP5"%string /\
    AssetModel.amount row = "0"%string /\
    AssetModel.symbol row = "RPX"%string /\
    AssetModel.name_raw row = quoted "Red Pulse" /\
    ContractModel.type model = NEP5_CONTRACT_TYPE.
Proof. eexists _, _, _. repeat split; vm_compute; reflexivity. Qed.

Example publish_plain_rows :
  exists cs model,
    getContracts decimal_toString integer_toNumber quoted quoted_array prefix_0x
      token_context (publish_tx plain_contract) 10 1000 = Ok cs /\
    cs_assets cs = [] /\ cs_contracts cs = [model] /\
    ContractModel.type model = UNKNOWN_CONTRACT_TYPE.
Proof. eexists _, _. repeat split; vm_compute; reflexivity. Qed.

Lemma nep5_classification_witness :
  nep5_condition token_context token_contract /\
  ~ nep5_condition token_context plain_contract.
Proof.
  split.
  - apply (proj1 (proj1 (nep5_classification decimal_toString integer_toNumber quoted
                           quoted_array prefix_0x token_context
                           (publish_tx token_contract) token_contract 10 1000))).
    vm_compute. reflexivity.
  - intros Hcond.
    apply (proj2 (proj1 (nep5_classification decimal_toString integer_toNumber quoted
                           quoted_array prefix_0x token_context
                           (publish_tx plain_contract) plain_contract 10 1000))) in Hcond.
    vm_compute in Hcond. discriminate.
Defined.

Lemma totalSupply_fault_tolerance_witness :
  checkIsNEP5 token_context token_contract = true /\
  ReadSmartContract.totalSupply unsupplied_token = Err (OtherError "VM fault") /\
  exists r asset,
    getContractAndAsset decimal_toString integer_toNumber quoted quoted_array prefix_0x
      token_context (publish_tx token_contract) token_contract 10 1000 = Ok r /\
    ca_asset r = Some asset /\
    AssetModel.amount asset = "0"%string.
Proof.
  split; [vm_compute; reflexivity|]. split; [reflexivity|].
  refine (proj1 (totalSupply_fault_tolerance decimal_toString integer_toNumber quoted
                   quoted_array prefix_0x token_context (publish_tx token_contract)
                   token_contract 10 1000 (NEP5_ABI (prefix_0x "c0ffee")) _ _)
            (OtherError "VM fault") "Red Pulse"%string "RPX"%string (BigNumber.mk 8 0)
            _ _ _ _ _);
    vm_compute; reflexivity.
Defined.

Lemma asset_symbol_is_name_witness :
  (exists row,
     getAsset decimal_toString quoted register_tx 1000 = Some row /\
     AssetModel.symbol row = quoted "AntShare" /\
     AssetModel.symbol row = AssetModel.name_raw row) /\
  (exists r row,
     getContractAndAsset decimal_toString integer_toNumber quoted quoted_array prefix_0x
       token_context (publish_tx token_contract) token_contract 10 1000 = Ok r /\
     ca_asset r = Some row /\
     AssetModel.symbol row = "RPX"%string /\
     AssetModel.name_raw row = quoted "Red Pulse").
Proof.
  split.
  - eexists. split; [reflexivity|].
    destruct (proj1 (asset_symbol_is_name (E := unit) decimal_toString integer_toNumber
                       quoted quoted_array prefix_0x)
                register_tx 1000 _ eq_refl) as (asset & Hasset & Hsymbol & Hraw).
    split; [|exact Hraw].
    rewrite Hsymbol. injection Hasset as <-. reflexivity.
  - refine (proj2 (proj2 (asset_symbol_is_name (E := unit) decimal_toString
                            integer_toNumber quoted quoted_array prefix_0x))
              token_context (publish_tx token_contract) token_contract 10 1000
              (NEP5_ABI (prefix_0x "c0ffee")) "Red Pulse"%string "RPX"%string
              (BigNumber.mk 8 0) _ _ _ _ _);
      vm_compute; reflexivity.
Defined.

(** * Further properties of the block updater *)

Section BlockUpdaterMore.

Context {E : Type}.
Variable updaters : BlockUpdaters.t E.

Implicit Types (w : World.t E) (context : Context.t E) (block : Block.t).

Lemma revert_blocks w context blockModel w' context' :
  revert updaters w context blockModel = Ok (w', context') ->
  World.blocks w' = delete (BlockModel.id blockModel) (World.blocks w) /\
  context' = Context.with_tip context
               (World.blocks w !! (BlockModel.id blockModel - 2))
               (match World.blocks w !! (BlockModel.id blockModel - 2) with
                | None => -1
                | Some p => BlockModel.id p
                end).
Proof.
  unfold revert. intros Hrev.
  destruct (revert_fan_out _ _ _ _ _) as [e4|]; [|discriminate]. simpl in Hrev.
  destruct (BlockUpdaters.processedIndex_revert _ _ _ _) as [e5|]; [|discriminate].
  simpl in Hrev. injection Hrev as <- <-. simpl. unfold getPreviousBlockModel. simpl.
  rewrite lookup_delete_ne by lia.
  replace (BlockModel.id blockModel - 1 - 1) with (BlockModel.id blockModel - 2) by lia.
  now split.
Qed.

Lemma table_wf_delete (blocks : gmap Z BlockModel.t) k :
  table_wf blocks -> table_wf (delete k blocks).
Proof.
  intros Hwf j row Hrow. apply lookup_delete_Some in Hrow as [_ Hrow]. now apply Hwf.
Qed.

Lemma size_delete_lt (blocks : gmap Z BlockModel.t) k row :
  blocks !! k = Some row -> (size (delete k blocks) < size blocks)%nat.
Proof.
  intros Hrow. rewrite map_size_delete, Hrow. simpl.
  assert (size blocks <> 0%nat).
  { intros Hz. apply map_size_empty_inv in Hz. subst. now rewrite lookup_empty in Hrow. }
  lia.
Qed.

(** X1: over a table that stores every row under its own index, [save]
    comes to an end: each nested call follows a revert that deleted a row, so
    one more call than there are rows is always enough. *)
Theorem save_terminates fuel w context block :
  table_wf (World.blocks w) ->
  (size (World.blocks w) < fuel)%nat ->
  exists r, save updaters fuel w context block = Some r.
Proof.
  revert w context block.
  induction fuel as [|fuel IH]; intros w context block Hwf Hsize; [lia|].
  simpl.
  destruct (bool_decide (Block.index block = getCurrentHeight context + 1)).
  - destruct (getPreviousBlockModel w context (Block.index block)) as [p|] eqn:Hp;
      [|eauto].
    destruct (bool_decide (Block.previousBlockHash block = BlockModel.hash p)); [eauto|].
    destruct (Client.getBlock _ _) as [prevBlock|]; simpl; [|eauto].
    destruct (revert updaters w context p) as [[w' nextContext]|] eqn:Hrev; simpl;
      [|eauto].
    apply revert_blocks in Hrev as [Hblocks _].
    apply IH; rewrite Hblocks.
    + now apply table_wf_delete.
    + unfold getPreviousBlockModel in Hp. rewrite (Hwf _ _ Hp).
      pose proof (size_delete_lt _ _ _ Hp). lia.
  - destruct (bool_decide (Block.index block = getCurrentHeight context)); [|eauto].
    unfold findById.
    destruct (World.blocks w !! Block.index block) as [blockModel|] eqn:Hrow; [|eauto].
    destruct (bool_decide (Block.hash block <> BlockModel.hash blockModel)); [|eauto].
    destruct (revert updaters w context blockModel) as [[w' nextContext]|] eqn:Hrev;
      [|eauto].
    apply revert_blocks in Hrev as [Hblocks _].
    apply IH; rewrite Hblocks.
    + now apply table_wf_delete.
    + rewrite (Hwf _ _ Hrow). pose proof (size_delete_lt _ _ _ Hrow). lia.
Qed.

Lemma insertOrFetch_Ok context (blocks blocks' : gmap Z BlockModel.t) row blockModel :
  insertOrFetch context blocks row = Ok (blocks', blockModel) ->
  (blocks !! BlockModel.id row = None /\
   blocks' = <[BlockModel.id row := row]> blocks /\ blockModel = row) \/
  (blocks' = blocks /\ blocks !! BlockModel.id row = Some blockModel).
Proof.
  unfold insertOrFetch, insertAndReturn, findById.
  destruct (Db.insert_fault _ _); [discriminate|].
  destruct (blocks !! BlockModel.id row) as [existing|] eqn:Hrow; simpl.
  - intros [= <- <-]. now right.
  - intros [= <- <-]. now left.
Qed.

(** What a successful append returns, whether the row was inserted or read
    back. *)
Lemma append_Ok w context block prevBlockModel w' context' :
  append updaters w context block prevBlockModel = Ok (w', context') ->
  exists blockModel,
    insertOrFetch context (World.blocks w)
      (block_row block prevBlockModel (systemFee_of block)
         (aggregatedSystemFee_of block prevBlockModel))
    = Ok (World.blocks w', blockModel) /\
    Context.prevBlock context' = Some blockModel /\
    Context.currentHeight context' = BlockModel.id blockModel.
Proof.
  unfold append. intros Happ.
  destruct (insertOrFetch _ _ _) as [[blocks' blockModel]|]; [|discriminate].
  simpl in Happ.
  destruct (save_fan_out _ _ _ _ _ _) as [[inner e4]|]; [|discriminate]. simpl in Happ.
  destruct (BlockUpdaters.processedIndex_save _ _ _ _) as [e5|]; [|discriminate].
  simpl in Happ. injection Happ as <- <-. exists blockModel. now repeat split.
Qed.

Lemma append_keeps_invariants w context block prevBlockModel w' context' :
  table_wf (World.blocks w) ->
  append updaters w context block prevBlockModel = Ok (w', context') ->
  table_wf (World.blocks w') /\ tip_consistent w' context'.
Proof.
  intros Hwf Happ.
  destruct (append_Ok _ _ _ _ _ _ Happ) as (blockModel & Hins & Hprev & Hheight).
  unfold tip_consistent.
  apply insertOrFetch_Ok in Hins as [(Hfree & Hblocks & ->)|(Hblocks & Hrow)];
    rewrite Hblocks.
  - split.
    + intros k row Hrow. apply lookup_insert_Some in Hrow as [[<- <-]|[_ Hrow]];
        [reflexivity|now apply Hwf].
    + intros row Hrow. rewrite Hprev in Hrow. injection Hrow as <-.
      rewrite Hheight. apply lookup_insert_eq.
  - split; [exact Hwf|].
    intros row Hrow'. rewrite Hprev in Hrow'. injection Hrow' as <-.
    rewrite Hheight, (Hwf _ _ Hrow). exact Hrow.
Qed.

Lemma revert_keeps_invariants w context blockModel w' context' :
  table_wf (World.blocks w) ->
  revert updaters w context blockModel = Ok (w', context') ->
  table_wf (World.blocks w') /\ tip_consistent w' context'.
Proof.
  intros Hwf Hrev. apply revert_blocks in Hrev as [Hblocks ->].
  unfold tip_consistent. rewrite Hblocks. split.
  - now apply table_wf_delete.
  - intros row. cbn. intros Hrow. rewrite Hrow.
    rewrite (Hwf _ _ Hrow). rewrite lookup_delete_ne by lia. exact Hrow.
Qed.

(** X2: whatever [save] does (append, read back, revert, nothing), it keeps
    every row under its own index, and the context it returns points, as
    previous block, at the committed row of its own height. *)
Theorem save_keeps_invariants fuel w context block w' context' :
  table_wf (World.blocks w) ->
  tip_consistent w context ->
  save updaters fuel w context block = Some (Ok (w', context')) ->
  table_wf (World.blocks w') /\ tip_consistent w' context'.
Proof.
  revert w context block.
  induction fuel as [|fuel IH]; intros w context block Hwf Htip Hsave; [discriminate|].
  simpl in Hsave.
  destruct (bool_decide (Block.index block = getCurrentHeight context + 1)).
  - destruct (getPreviousBlockModel w context (Block.index block)) as [p|] eqn:Hp.
    + destruct (bool_decide (Block.previousBlockHash block = BlockModel.hash p)).
      * injection Hsave as Happ. eapply append_keeps_invariants; eauto.
      * destruct (Client.getBlock _ _) as [prevBlock|]; simpl in Hsave; [|discriminate].
        destruct (revert updaters w context p) as [[w1 c1]|] eqn:Hrev; simpl in Hsave;
          [|discriminate].
        destruct (revert_keeps_invariants _ _ _ _ _ Hwf Hrev) as [Hwf1 Htip1].
        eapply IH; eauto.
    + injection Hsave as Happ. eapply append_keeps_invariants; eauto.
  - destruct (bool_decide (Block.index block = getCurrentHeight context)).
    + destruct (findById _ _) as [blockModel|]; [|discriminate].
      destruct (bool_decide (Block.hash block <> BlockModel.hash blockModel)).
      * destruct (revert updaters w context blockModel) as [[w1 c1]|] eqn:Hrev;
          [|discriminate].
        destruct (revert_keeps_invariants _ _ _ _ _ Hwf Hrev) as [Hwf1 Htip1].
        eapply IH; eauto.
      * injection Hsave as <- <-. now split.
    + injection Hsave as <- <-. now split.
Qed.

Lemma linked_index i prev chain n block :
  linked i prev chain -> chain !! n = Some block -> Block.index block = i + Z.of_nat n.
Proof.
  revert i prev n. induction chain as [|b chain IH]; intros i prev n Hlinked Hn;
    [discriminate|].
  destruct Hlinked as (Hidx & _ & Hrest). destruct n as [|n]; simpl in Hn.
  - injection Hn as <-. lia.
  - rewrite (IH _ _ _ Hrest Hn). lia.
Qed.

Lemma save_chained_step d l fuel w context done block :
  save_reliable updaters d l ->
  chained d l w context done ->
  Block.index block = Z.of_nat (length done) ->
  match last done with
  | None => True
  | Some b => Block.previousBlockHash block = Block.hash b
  end ->
  exists w' context',
    save updaters (S fuel) w context block = Some (Ok (w', context')) /\
    chained d l w' context' (done ++ [block]).
Proof.
  intros Hrel (Hheight & Hd & Hl & Hfree & Hrows) Hidx Hlink.
  set (prevBlockModel := getPreviousBlockModel w context (Block.index block)).
  assert (Hlink' :
    match prevBlockModel with
    | None => True
    | Some p => Block.previousBlockHash block = BlockModel.hash p
    end).
  { subst prevBlockModel. unfold getPreviousBlockModel. rewrite Hidx.
    rewrite last_lookup in Hlink.
    destruct (done !! Nat.pred (length done)) as [b|] eqn:Hb.
    - assert (Hlen : (0 < length done)%nat) by (apply lookup_lt_Some in Hb; lia).
      replace (Z.of_nat (length done) - 1) with (Z.of_nat (Nat.pred (length done)))
        by lia.
      rewrite (Hrows _ _ Hb). exact Hlink.
    - destruct (World.blocks w !! (Z.of_nat (length done) - 1)) as [p|] eqn:Hp;
        [|exact I].
      apply lookup_ge_None in Hb.
      assert (Hnil : length done = 0%nat) by (destruct done; simpl in *; lia).
      rewrite Hnil in Hp. rewrite Hfree in Hp by lia. discriminate. }
  assert (Hnext : Block.index block = getCurrentHeight context + 1)
    by (unfold getCurrentHeight; lia).
  rewrite (save_append updaters fuel w context block prevBlockModel Hnext eq_refl Hlink').
  assert (Hfresh : World.blocks w !! Block.index block = None) by (apply Hfree; lia).
  destruct (append_reliable updaters d l w context block prevBlockModel Hrel Hd Hl Hfresh)
    as (inner & e5 & -> & Hd' & Hl').
  eexists _, _. split; [reflexivity|].
  unfold chained. cbn [World.blocks Context.with_tip Context.currentHeight
                        Context.db Context.systemFee].
  rewrite length_app. simpl. repeat split; [lia|exact Hd'|exact Hl'| |].
  - intros k Hk. rewrite lookup_insert_ne by lia. apply Hfree. lia.
  - intros n b Hb. apply lookup_snoc_Some in Hb as [[Hn Hb]|[-> <-]].
    + rewrite !lookup_insert_ne by lia. now apply Hrows.
    + rewrite <- Hidx, lookup_insert_eq, lookup_insert_ne by lia. reflexivity.
Qed.

Lemma save_all_chained d l fuel rest :
  save_reliable updaters d l ->
  forall done w context,
    chained d l w context done ->
    linked (Z.of_nat (length done)) (Block.hash <$> last done) rest ->
    exists w' context',
      save_all updaters (S fuel) w context rest = Some (Ok (w', context')) /\
      chained d l w' context' (done ++ rest).
Proof.
  intros Hrel. induction rest as [|block rest IH]; intros done w context Hinv Hlinked.
  - exists w, context. rewrite app_nil_r. now split.
  - destruct Hlinked as (Hidx & Hlink & Hrest).
    destruct (save_chained_step d l fuel w context done block Hrel Hinv Hidx) as
      (w1 & c1 & Hsave & Hinv1).
    { destruct (last done); [exact Hlink|exact I]. }
    destruct (IH (done ++ [block]) w1 c1 Hinv1) as (w2 & c2 & Hrun & Hinv2).
    { rewrite last_snoc, length_app. simpl.
      replace (Z.of_nat (length done + 1)) with (Z.of_nat (length done) + 1) by lia.
      exact Hrest. }
    exists w2, c2. split.
    + cbn [save_all]. rewrite Hsave. exact Hrun.
    + now rewrite <- app_assoc in Hinv2.
Qed.

(** X3: blocks with contiguous indices from 0 and matching previous-hash
    links, handed to [save] one after the other from the empty projection,
    are all appended: the height ends at the last index, the table holds one
    row per block and nothing else, and each row carries its block's index,
    hash and transaction count and points at the block before it (id, hash
    and next-consensus address), the first row pointing at nothing. *)
Theorem save_all_rows d l fuel w context chain :
  save_reliable updaters d l ->
  Context.db context = d ->
  Context.systemFee context = l ->
  World.blocks w = ∅ ->
  getCurrentHeight context = -1 ->
  linked 0 None chain ->
  exists w' context',
    save_all updaters (S fuel) w context chain = Some (Ok (w', context')) /\
    getCurrentHeight context' = Z.of_nat (length chain) - 1 /\
    (forall k, k < 0 \/ Z.of_nat (length chain) <= k -> World.blocks w' !! k = None) /\
    forall n block, chain !! n = Some block ->
      exists row,
        World.blocks w' !! Z.of_nat n = Some row /\
        BlockModel.id row = Z.of_nat n /\
        BlockModel.hash row = Block.hash block /\
        BlockModel.transaction_count row
        = Z.of_nat (length (Block.transactions block)) /\
        match n with
        | O =>
            BlockModel.previous_block_id row = None /\
            BlockModel.previous_block_hash row = None /\
            BlockModel.validator_address_id row = None
        | S m =>
            BlockModel.previous_block_id row = Some (Z.of_nat m) /\
            BlockModel.previous_block_hash row = Block.hash <$> chain !! m /\
            BlockModel.validator_address_id row = Block.nextConsensus <$> chain !! m
        end.
Proof.
  intros Hrel Hd Hl Hempty Hheight Hlinked.
  assert (Hinv : chained d l w context []).
  { unfold chained. simpl. repeat split; try assumption.
    - intros k _. rewrite Hempty. apply lookup_empty.
    - intros n block Hn. discriminate. }
  destruct (save_all_chained d l fuel chain Hrel [] w context Hinv Hlinked)
    as (w' & context' & Hrun & (Hheight' & _ & _ & Hfree & Hrows)).
  simpl in Hrows, Hfree, Hheight'.
  exists w', context'. split; [exact Hrun|]. split; [exact Hheight'|].
  split; [exact Hfree|].
  intros n block Hn. eexists. split; [exact (Hrows n block Hn)|].
  cbn [block_row BlockModel.id BlockModel.hash BlockModel.transaction_count
       BlockModel.previous_block_id BlockModel.previous_block_hash
       BlockModel.validator_address_id].
  split; [rewrite (linked_index _ _ _ _ _ Hlinked Hn); lia|].
  split; [reflexivity|]. split; [reflexivity|].
  destruct n as [|m].
  - rewrite Hfree by lia. now repeat split.
  - assert (Hm : is_Some (chain !! m)).
    { apply lookup_lt_is_Some. apply lookup_lt_Some in Hn. lia. }
    destruct Hm as [bm Hm].
    replace (Z.of_nat (S m) - 1) with (Z.of_nat m) by lia.
    rewrite (Hrows m bm Hm), Hm. simpl.
    rewrite (linked_index _ _ _ _ _ Hlinked Hm). repeat split; f_equal; lia.
Qed.

(** X4: a first block committed alone (height 0) is replaced by another
    block of index 0 and a different hash: [save] reverts the row and appends
    the new block in its place, with no previous-block pointers and its own
    fee as aggregated fee, and returns height 0. *)
Theorem save_replaces_first_block fuel w context block row0 :
  save_reliable updaters (Context.db context) (Context.systemFee context) ->
  revert_reliable updaters (Context.systemFee context) ->
  getCurrentHeight context = 0 ->
  Block.index block = 0 ->
  World.blocks w !! 0 = Some row0 ->
  BlockModel.id row0 = 0 ->
  World.blocks w !! (-1) = None ->
  World.blocks w !! (-2) = None ->
  Block.hash block <> BlockModel.hash row0 ->
  let row := block_row block None (systemFee_of block) (systemFee_of block) in
  exists w' context',
    save updaters (S (S fuel)) w context block = Some (Ok (w', context')) /\
    World.blocks w' = <[0 := row]> (World.blocks w) /\
    getCurrentHeight context' = 0 /\
    Context.prevBlock context' = Some row /\
    BlockModel.previous_block_hash row = None /\
    BlockModel.aggregated_system_fee row = BlockModel.system_fee row.
Proof.
  intros Hsave Hrevert Hheight Hidx Hrow0 Hid0 Hm1 Hm2 Hhash row.
  rewrite (save_replace updaters (S fuel) w context block row0);
    [|now rewrite Hidx, Hheight|now rewrite Hidx|exact Hhash].
  destruct (revert_reliable_ok updaters w context row0 Hrevert)
    as (e4 & e5 & Hfan & Hcursor).
  rewrite (revert_result updaters w context row0 e4 e5 Hfan Hcursor).
  rewrite Hid0. change (0 - 1 - 1) with (-2). rewrite Hm2.
  set (w1 := World.mk (delete 0 (World.blocks w)) e5).
  set (c1 := Context.with_tip context None (-1)).
  assert (Hnext : Block.index block = getCurrentHeight c1 + 1) by (rewrite Hidx; reflexivity).
  assert (Hprev : getPreviousBlockModel w1 c1 (Block.index block) = None).
  { unfold getPreviousBlockModel. rewrite Hidx. simpl.
    rewrite lookup_delete_ne by lia. exact Hm1. }
  rewrite (save_append updaters fuel w1 c1 block None Hnext Hprev I).
  assert (Hfree : World.blocks w1 !! Block.index block = None)
    by (rewrite Hidx; apply lookup_delete_eq).
  destruct (append_reliable updaters (Context.db context) (Context.systemFee context)
              w1 c1 block None Hsave eq_refl eq_refl Hfree)
    as (inner & e6 & -> & _ & _).
  eexists _, _. split; [reflexivity|]. cbn. rewrite Hidx.
  repeat split. apply insert_delete_eq.
Qed.

(** X5: on the append branch, with the insert accepted by the storage
    engine, a failure of one of the collaborators of the fan-out, or of the
    processed-index updater after it, is the failure of [save]. *)
Theorem save_collaborator_failure fuel w context block prevBlockModel error :
  Block.index block = getCurrentHeight context + 1 ->
  getPreviousBlockModel w context (Block.index block) = prevBlockModel ->
  match prevBlockModel with
  | None => True
  | Some p => Block.previousBlockHash block = BlockModel.hash p
  end ->
  Db.insert_fault (Context.db context) (Block.index block) = None ->
  (save_fan_out updaters context block prevBlockModel
     (aggregatedSystemFee_of block prevBlockModel) (World.ext w) = Err error ->
   save updaters (S fuel) w context block = Some (Err error)) /\
  (forall inner e4,
     save_fan_out updaters context block prevBlockModel
       (aggregatedSystemFee_of block prevBlockModel) (World.ext w) = Ok (inner, e4) ->
     BlockUpdaters.processedIndex_save updaters inner (Block.index block) e4 = Err error ->
     save updaters (S fuel) w context block = Some (Err error)).
Proof.
  intros Hidx Hprev Hlink Hfault.
  rewrite (save_append updaters fuel w context block prevBlockModel Hidx Hprev Hlink).
  unfold append.
  set (row := block_row block prevBlockModel _ _).
  assert (Hins : exists blocks' blockModel,
            insertOrFetch context (World.blocks w) row = Ok (blocks', blockModel)).
  { destruct (World.blocks w !! BlockModel.id row) as [existing|] eqn:Hrow.
    - destruct (insertAndReturn_conflict context _ row existing Hfault Hrow)
        as [_ ->]. eauto.
    - rewrite (insertAndReturn_fresh context _ row Hfault Hrow). eauto. }
  destruct Hins as (blocks' & blockModel & ->). simpl. split.
  - intros ->. reflexivity.
  - intros inner e4 -> Hcursor. simpl. now rewrite Hcursor.
Qed.

(** X6: when the block sits at the current height, [save] fails with the
    not-found error if no row is stored there; and if the stored row has
    another hash, a failure of [revert] is the failure of [save]. *)
Theorem save_at_height_failure fuel w context block :
  Block.index block = getCurrentHeight context ->
  (World.blocks w !! Block.index block = None ->
   save updaters (S fuel) w context block = Some (Err NotFoundError)) /\
  (forall row error,
     World.blocks w !! Block.index block = Some row ->
     Block.hash block <> BlockModel.hash row ->
     revert updaters w context row = Err error ->
     save updaters (S fuel) w context block = Some (Err error)).
Proof.
  intros Hidx. split.
  - intros Hrow. simpl.
    rewrite bool_decide_eq_false_2 by lia.
    rewrite bool_decide_eq_true_2 by exact Hidx.
    unfold findById. now rewrite Hrow.
  - intros row error Hrow Hhash Hrev.
    rewrite (save_replace updaters fuel w context block row Hidx Hrow Hhash).
    now rewrite Hrev.
Qed.

End BlockUpdaterMore.

(** * Further facts on concrete chains *)

Lemma localA_wf : table_wf (World.blocks (fst localA)).
Proof.
  assert (Hall : map_Forall (fun k row => BlockModel.id row = k)
                   (World.blocks (fst localA))).
  { apply map_Forall_to_list. vm_compute. repeat constructor. }
  intros k row Hrow. exact (Hall k row Hrow).
Qed.

Lemma localA_tip : tip_consistent (fst localA) (snd localA).
Proof. intros row Hrow. rewrite <- Hrow. vm_compute. reflexivity. Qed.

Lemma save_terminates_witness :
  exists r, save null_updaters 7 (fst localA) (snd localA) (canonical 5) = Some r.
Proof.
  apply (save_terminates null_updaters 7 (fst localA) (snd localA) (canonical 5)).
  - exact localA_wf.
  - vm_compute. lia.
Defined.

Lemma save_keeps_invariants_witness :
  table_wf (World.blocks (fst after_fork)) /\
  tip_consistent (fst after_fork) (snd after_fork).
Proof.
  apply (save_keeps_invariants null_updaters 8 (fst localA) (snd localA) (canonical 5)
           (fst after_fork) (snd after_fork)).
  - exact localA_wf.
  - exact localA_tip.
  - vm_compute. reflexivity.
Defined.

Lemma save_all_rows_witness :
  exists w' context',
    save_all null_updaters 1 empty_world (start_context (chain_client chainB)) chainA
    = Some (Ok (w', context')) /\
    getCurrentHeight context' = 5 /\
    BlockModel.previous_block_hash (row_at w' 4) = Some "a3"%string.
Proof.
  destruct (save_all_rows null_updaters null_db null_systemFee 0%nat empty_world
              (start_context (chain_client chainB)) chainA null_save_reliable
              eq_refl eq_refl eq_refl eq_refl)
    as (w' & context' & Hrun & Hheight & _ & Hrows).
  - simpl. tauto.
  - exists w', context'. split; [exact Hrun|]. split; [exact Hheight|].
    destruct (Hrows 4%nat (nth 4 chainA dust_block) eq_refl)
      as (row & Hrow & _ & _ & _ & _ & Hhash & _).
    unfold row_at. change (Z.of_nat 4) with 4 in Hrow. rewrite Hrow. exact Hhash.
Defined.

Lemma save_replaces_first_block_witness :
  exists w' context',
    save null_updaters 2 (fst localA0) (snd localA0) other_first_block
    = Some (Ok (w', context')) /\
    getCurrentHeight context' = 0 /\
    BlockModel.hash <$> World.blocks w' !! 0 = Some "b0"%string /\
    aggregated_at w' 0 = 200000000.
Proof.
  destruct (save_replaces_first_block null_updaters 0%nat (fst localA0) (snd localA0)
              other_first_block (row_at (fst localA0) 0))
    as (w' & context' & Hsave & Hblocks & Hheight & _).
  - exact null_save_reliable.
  - exact null_revert_reliable.
  - reflexivity.
  - reflexivity.
  - vm_compute. reflexivity.
  - reflexivity.
  - vm_compute. reflexivity.
  - vm_compute. reflexivity.
  - vm_compute. discriminate.
  - exists w', context'. split; [exact Hsave|]. split; [exact Hheight|].
    unfold aggregated_at. rewrite Hblocks, lookup_insert_eq. split; reflexivity.
Defined.

Lemma save_collaborator_failure_witness :
  save broken_updaters 1 empty_world (start_context (chain_client chainB))
    (nth 0 chainA dust_block)
  = Some (Err (OtherError "address table locked")).
Proof.
  apply (proj1 (save_collaborator_failure broken_updaters 0%nat empty_world
                  (start_context (chain_client chainB)) (nth 0 chainA dust_block) None
                  (OtherError "address table locked") eq_refl eq_refl I eq_refl)).
  reflexivity.
Defined.

Lemma save_at_height_failure_witness :
  save null_updaters 1 empty_world
    (Context.with_tip (start_context (chain_client chainB)) None 3) (canonical 3)
  = Some (Err NotFoundError).
Proof.
  apply (proj1 (save_at_height_failure null_updaters 0%nat empty_world
                  (Context.with_tip (start_context (chain_client chainB)) None 3)
                  (canonical 3) eq_refl)).
  reflexivity.
Defined.

(** * Further properties of the extraction *)

Lemma mapM_result_cons {A B : Type} (f : A -> result B) (x : A) (l : list A) :
  mapM f (x :: l)
  = match f x with
    | Ok y => match mapM f l with
              | Ok k => Ok (y :: k)
              | Err e => Err e
              end
    | Err e => Err e
    end.
Proof. reflexivity. Qed.

Lemma mapM_Ok {A B : Type} (f : A -> result B) (l : list A) (k : list B) :
  mapM f l = Ok k -> Forall2 (fun x y => f x = Ok y) l k.
Proof.
  revert k. induction l as [|x l IH]; intros k.
  - intros [= <-]. constructor.
  - rewrite mapM_result_cons. destruct (f x) as [y|] eqn:Hx; [|discriminate].
    destruct (mapM f l) as [k'|]; [|discriminate].
    intros [= <-]. constructor; [exact Hx|now apply IH].
Qed.

Lemma mapM_Err {A B : Type} (f : A -> result B) (l : list A) (x : A) (e : Error) :
  x ∈ l -> f x = Err e -> exists e', mapM f l = Err e'.
Proof.
  intros Hin Hx. induction Hin as [x l|x y l Hin IH]; rewrite mapM_result_cons.
  - rewrite Hx. eauto.
  - destruct (f y); [|eauto]. destruct (IH Hx) as [e' ->]. eauto.
Qed.

Lemma omap_pointwise {A B : Type} (f g : A -> option B) (l : list A) :
  (forall x, f x = g x) -> omap f l = omap g l.
Proof.
  intros Hfg. induction l as [|x l IH]; [reflexivity|].
  cbn [omap list_omap]. now rewrite Hfg, IH.
Qed.

Lemma string_append_assoc (a b c : string) : (a +:+ b) +:+ c = a +:+ (b +:+ c).
Proof.
  induction a as [|x a IH]; [reflexivity|]. exact (f_equal (String x) IH).
Qed.

Lemma fold_insert_lookup {V : Type} (l : list (string * V)) (m : gmap string V) k :
  (is_Some (m !! k) -> is_Some (fold_left (fun acc '(i, v) => <[i := v]> acc) l m !! k)) /\
  (k ∈ l.*1 -> is_Some (fold_left (fun acc '(i, v) => <[i := v]> acc) l m !! k)) /\
  (k ∉ l.*1 -> fold_left (fun acc '(i, v) => <[i := v]> acc) l m !! k = m !! k).
Proof.
  revert m. induction l as [|[i v] l IH]; intros m; simpl.
  - split; [tauto|]. split; [|reflexivity]. intros Hin. inversion Hin.
  - destruct (IH (<[i := v]> m)) as (Hmono & Hin & Hout). repeat split.
    + intros Hm. apply Hmono. destruct (decide (i = k)) as [->|Hne].
      * rewrite lookup_insert_eq. eauto.
      * now rewrite lookup_insert_ne.
    + intros Hk. destruct (decide (k ∈ l.*1)) as [Hl|Hl]; [now apply Hin|].
      apply elem_of_cons in Hk as [->|Hk]; [|contradiction].
      rewrite Hout by exact Hl. rewrite lookup_insert_eq. eauto.
    + intros Hk. apply not_elem_of_cons in Hk as [Hne Hk].
      rewrite Hout by exact Hk. now rewrite lookup_insert_ne.
Qed.

Section ExtractionMore.

Context {E : Type}.
Variable BigNumber_toString : BigNumber.t -> string.
Variable BigNumber_toNumber : BigNumber.t -> Z.
Variable JSON_stringify : string -> string.
Variable JSON_stringify_array : list string -> string.
Variable add0x : string -> string.

Local Abbreviation getContractAndAsset_ :=
  (getContractAndAsset BigNumber_toString BigNumber_toNumber JSON_stringify
     JSON_stringify_array add0x).

Local Abbreviation getContracts_ :=
  (getContracts BigNumber_toString BigNumber_toNumber JSON_stringify
     JSON_stringify_array add0x).

Local Abbreviation getAsset_ := (getAsset BigNumber_toString JSON_stringify).

Local Abbreviation contract_model_ :=
  (contract_model BigNumber_toString JSON_stringify_array).

Local Abbreviation getAssetsAndContractsForClient_ :=
  (getAssetsAndContractsForClient BigNumber_toString BigNumber_toNumber JSON_stringify
     JSON_stringify_array add0x).

(** What [getContractAndAsset] resolves to, by classification. *)
Lemma getContractAndAsset_Ok (context : Context.t E) transaction contract
    blockIndex blockTime r :
  getContractAndAsset_ context transaction contract blockIndex blockTime = Ok r ->
  ca_contract r
  = contract_model_ transaction contract blockIndex blockTime (checkIsNEP5 context contract) /\
  if checkIsNEP5 context contract
  then exists row handle,
         ca_asset r = Some row /\ token_row blockTime row /\
         ca_nep5Contract r = Some handle
  else ca_asset r = None /\ ca_nep5Contract r = None.
Proof.
  intros Hr. destruct (checkIsNEP5 context contract) eqn:Hcheck.
  - destruct (getContractAndAsset_token _ _ _ _ _ _ _ _ _ _ _ Hcheck Hr)
      as (abi & name & symbol & decimals & supply & _ & _ & _ & _ & _ & ->).
    simpl. split; [reflexivity|]. eexists _, _. split; [reflexivity|].
    split; [|reflexivity]. unfold token_row, fresh_counters. simpl. tauto.
  - rewrite getContractAndAsset_unknown in Hr by exact Hcheck.
    injection Hr as <-. simpl. tauto.
Qed.

(** What [getContracts] resolves to, list by list. *)
Lemma getContracts_Ok (context : Context.t E) transaction blockIndex blockTime cs :
  getContracts_ context transaction blockIndex blockTime = Ok cs ->
  let pairs := map (fun contract => (transaction, contract)) (contracts_of transaction) in
  let tokens := filter (fun p => checkIsNEP5 context p.2 = true) pairs in
  cs_contracts cs
  = map (fun p => contract_model_ p.1 p.2 blockIndex blockTime (checkIsNEP5 context p.2))
      pairs /\
  (cs_nep5Contracts cs).*1 = map (fun p => Contract.hash p.2) tokens /\
  length (cs_assets cs) = length tokens /\
  Forall (token_row blockTime) (cs_assets cs).
Proof.
  unfold getContracts. intros Hcs.
  destruct (mapM _ _) as [results|] eqn:Hresults; [|discriminate].
  simpl in Hcs. injection Hcs as <-. simpl.
  apply mapM_Ok in Hresults.
  induction Hresults as [|contract r contracts results Hr _ IH]; simpl.
  - repeat split; constructor.
  - destruct IH as (IHc & IHk & IHl & IHa).
    apply getContractAndAsset_Ok in Hr as [Hmodel Hcase].
    rewrite filter_cons. simpl.
    destruct (checkIsNEP5 context contract) eqn:Hcheck.
    + destruct Hcase as (row & handle & -> & Hrow & ->).
      destruct (decide (true = true)) as [_|Hne]; [|contradiction].
      simpl. split; [|split; [|split]].
      * rewrite Hmodel. f_equal. exact IHc.
      * rewrite Hmodel. simpl. f_equal. exact IHk.
      * f_equal. exact IHl.
      * constructor; assumption.
    + destruct Hcase as [-> ->].
      destruct (decide (false = true)) as [Habs|_]; [discriminate|].
      split; [|split; [|split]]; try assumption.
      rewrite Hmodel. f_equal. exact IHc.
Qed.

Lemma concat_map_cons {A B : Type} (F : A -> list B) (x : A) (l : list A) :
  concat (map F (x :: l)) = F x ++ concat (map F l).
Proof. reflexivity. Qed.

Lemma batch_contracts_cons transaction (i : Z) transactions :
  batch_contracts ((transaction, i) :: transactions)
  = map (fun contract => (transaction, contract)) (contracts_of transaction)
    ++ batch_contracts transactions.
Proof. reflexivity. Qed.

(** The shape of what the batch extraction resolves to. *)
Lemma getAssetsAndContractsForClient_Ok (context : Context.t E) transactions
    blockIndex blockTime r :
  getAssetsAndContractsForClient_ context transactions blockIndex blockTime = Ok r ->
  exists results,
    Forall2 (fun p cs => getContracts_ context p.1 blockIndex blockTime = Ok cs)
      transactions results /\
    ac_assets r
    = omap (fun p => getAsset_ p.1 blockTime) transactions
      ++ concat (map cs_assets results) /\
    ac_contracts r = concat (map cs_contracts results) /\
    ac_context r
    = Context.with_nep5Contracts context
        (fold_left (fun acc '(contractID, nep5Contract) => <[contractID := nep5Contract]> acc)
           (concat (map cs_nep5Contracts results)) (Context.nep5Contracts context)).
Proof.
  unfold getAssetsAndContractsForClient. intros Hr.
  destruct (mapM _ _) as [results|] eqn:Hresults; [|discriminate].
  simpl in Hr. injection Hr as <-. exists results. simpl.
  apply mapM_Ok in Hresults. split; [|split; [|split]]; try reflexivity.
  - eapply Forall2_impl; [exact Hresults|]. intros [transaction i] cs. exact id.
  - f_equal. apply omap_pointwise. intros [transaction i]. reflexivity.
Qed.

Lemma batch_results (context : Context.t E) transactions blockIndex blockTime results :
  Forall2 (fun p cs => getContracts_ context p.1 blockIndex blockTime = Ok cs)
    transactions results ->
  concat (map cs_contracts results)
  = map (fun p => contract_model_ p.1 p.2 blockIndex blockTime (checkIsNEP5 context p.2))
      (batch_contracts transactions) /\
  (concat (map cs_nep5Contracts results)).*1
  = map (fun p => Contract.hash p.2) (batch_tokens context transactions) /\
  length (concat (map cs_assets results)) = length (batch_tokens context transactions) /\
  Forall (token_row blockTime) (concat (map cs_assets results)).
Proof.
  unfold batch_tokens.
  induction 1 as [|[transaction i] cs transactions results Hcs _ IH].
  - repeat split; constructor.
  - destruct IH as (IHc & IHk & IHl & IHa).
    apply getContracts_Ok in Hcs as (Hc & Hk & Hl & Ha). simpl in Hc, Hk, Hl.
    rewrite batch_contracts_cons, filter_app, !map_app.
    rewrite !(concat_map_cons _ cs results).
    rewrite fmap_app, !length_app.
    rewrite Hc, Hk, Hl, IHc, IHk, IHl.
    repeat split. now apply Forall_app.
Qed.

(** X7: for a batch in which no transaction brings a contract, the
    extraction issues no query and cannot fail: it returns the assets of the
    registration and invocation descriptors, no contract row, and the context
    as it was. *)
Theorem extraction_without_contracts (context : Context.t E) transactions
    blockIndex blockTime :
  Forall (fun p => contracts_of p.1 = []) transactions ->
  getAssetsAndContractsForClient_ context transactions blockIndex blockTime
  = Ok (mkAssetsAndContracts
          (omap (fun p => getAsset_ p.1 blockTime) transactions) [] context).
Proof.
  intros Hnone. unfold getAssetsAndContractsForClient.
  assert (Hresults :
    mapM (fun '(transaction, _) => getContracts_ context transaction blockIndex blockTime)
      transactions
    = Ok (map (fun _ => mkContracts [] [] []) transactions)).
  { induction Hnone as [|[transaction i] transactions Hx _ IH];
      [reflexivity|].
    rewrite mapM_result_cons, IH. unfold getContracts. simpl in Hx. now rewrite Hx. }
  rewrite Hresults. simpl.
  assert (Hempty : forall (F : Contracts -> list AssetModel.t)
                     (G : Contracts -> list ContractModel.t)
                     (H : Contracts -> list (string * ReadSmartContract.t)),
            F (mkContracts [] [] []) = [] -> G (mkContracts [] [] []) = [] ->
            H (mkContracts [] [] []) = [] ->
            concat (map F (map (fun _ : Tx.t * Z => mkContracts [] [] []) transactions)) = []
            /\ concat (map G (map (fun _ : Tx.t * Z => mkContracts [] [] []) transactions)) = []
            /\ concat (map H (map (fun _ : Tx.t * Z => mkContracts [] [] []) transactions)) = []).
  { intros F G H HF HG HH. clear Hresults Hnone.
    induction transactions as [|p transactions IH]; [now repeat split|].
    simpl. rewrite HF, HG, HH. exact IH. }
  destruct (Hempty cs_assets cs_contracts cs_nep5Contracts eq_refl eq_refl eq_refl)
    as (-> & -> & ->).
  rewrite app_nil_r. simpl. f_equal. f_equal.
  - apply omap_pointwise. intros [transaction i]. reflexivity.
  - now destruct context.
Qed.

(** X8: when the batch extraction succeeds, it returns exactly one contract
    row per contract of the batch, in input order, each computed from the
    contract, its transaction and the classification alone. *)
Theorem extraction_contract_rows (context : Context.t E) transactions
    blockIndex blockTime r :
  getAssetsAndContractsForClient_ context transactions blockIndex blockTime = Ok r ->
  ac_contracts r
  = map (fun p => contract_model_ p.1 p.2 blockIndex blockTime (checkIsNEP5 context p.2))
      (batch_contracts transactions).
Proof.
  intros Hr.
  destruct (getAssetsAndContractsForClient_Ok _ _ _ _ _ Hr)
    as (results & Hresults & _ & -> & _).
  exact (proj1 (batch_results _ _ _ _ _ Hresults)).
Qed.

(** X9: when the batch extraction succeeds, the asset rows are those of the
    registration and invocation descriptors, in input order, followed by one
    row per contract classified as a token (typed NEP5, without owner or
    admin); every row starts with zeroed counters, the aggregation sentinel
    -1 and the block's time. *)
Theorem extraction_asset_rows (context : Context.t E) transactions
    blockIndex blockTime r :
  getAssetsAndContractsForClient_ context transactions blockIndex blockTime = Ok r ->
  exists tokens,
    ac_assets r = omap (fun p => getAsset_ p.1 blockTime) transactions ++ tokens /\
    length tokens = length (batch_tokens context transactions) /\
    Forall (token_row blockTime) tokens /\
    Forall (fresh_counters blockTime) (ac_assets r).
Proof.
  intros Hr.
  destruct (getAssetsAndContractsForClient_Ok _ _ _ _ _ Hr)
    as (results & Hresults & Hassets & _ & _).
  destruct (batch_results _ _ _ _ _ Hresults) as (_ & _ & Hlen & Htokens).
  exists (concat (map cs_assets results)).
  split; [exact Hassets|]. split; [exact Hlen|]. split; [exact Htokens|].
  rewrite Hassets. apply Forall_app. split.
  - apply Forall_forall. intros row Hrow.
    apply list_elem_of_omap in Hrow as ([transaction i] & _ & Hrow).
    simpl in Hrow. unfold getAsset in Hrow.
    destruct (asset_of transaction); [|discriminate].
    injection Hrow as <-. unfold fresh_counters. simpl. tauto.
  - eapply Forall_impl; [exact Htokens|]. intros row (_ & _ & _ & Hfresh). exact Hfresh.
Qed.

(** X10: when the batch extraction succeeds, the handle cache of the
    returned context keeps every key it had, holds a handle under the hash of
    every contract of the batch classified as a token, and is unchanged at
    every other key; the rest of the context is as it was. *)
Theorem extraction_cache (context : Context.t E) transactions blockIndex blockTime r :
  getAssetsAndContractsForClient_ context transactions blockIndex blockTime = Ok r ->
  let old := Context.nep5Contracts context in
  let new := Context.nep5Contracts (ac_context r) in
  (forall k, is_Some (old !! k) -> is_Some (new !! k)) /\
  (forall p, p ∈ batch_tokens context transactions ->
     is_Some (new !! Contract.hash p.2)) /\
  (forall k,
     (forall p, p ∈ batch_tokens context transactions -> Contract.hash p.2 <> k) ->
     new !! k = old !! k) /\
  ac_context r = Context.with_nep5Contracts context new.
Proof.
  intros Hr old new.
  destruct (getAssetsAndContractsForClient_Ok _ _ _ _ _ Hr)
    as (results & Hresults & _ & _ & Hctx).
  destruct (batch_results _ _ _ _ _ Hresults) as (_ & Hkeys & _ & _).
  subst new. rewrite Hctx. cbn [Context.with_nep5Contracts Context.nep5Contracts].
  split; [|split; [|split]]; [| | |reflexivity].
  - intros k. apply fold_insert_lookup.
  - intros p Hp. apply fold_insert_lookup. rewrite Hkeys.
    apply list_elem_of_fmap. now exists p.
  - intros k Hk. apply fold_insert_lookup. rewrite Hkeys.
    intros Hin. apply list_elem_of_fmap in Hin as (p & -> & Hp). now apply (Hk p).
Qed.

(** X11: if the extraction of one contract of the batch fails (a failing
    [name], [symbol] or [decimals] query, or a failing descriptor), the
    extraction of the whole batch fails and returns no row at all. *)
Theorem extraction_failure (context : Context.t E) transactions blockIndex blockTime p e :
  p ∈ batch_contracts transactions ->
  getContractAndAsset_ context p.1 p.2 blockIndex blockTime = Err e ->
  exists e',
    getAssetsAndContractsForClient_ context transactions blockIndex blockTime = Err e'.
Proof.
  intros Hin Hfail.
  destruct (getAssetsAndContractsForClient_ context transactions blockIndex blockTime)
    as [r|e'] eqn:Hr; [|eauto].
  exfalso.
  destruct (getAssetsAndContractsForClient_Ok _ _ _ _ _ Hr) as (results & Hresults & _).
  clear Hr. induction Hresults as [|[transaction i] cs transactions results Hcs _ IH].
  - inversion Hin.
  - rewrite batch_contracts_cons in Hin. apply elem_of_app in Hin as [Hin|Hin];
      [|now apply IH].
    apply list_elem_of_fmap in Hin as (contract & -> & Hin).
    cbn [fst snd] in Hcs, Hfail. unfold getContracts in Hcs.
    destruct (mapM_Err
                (fun contract =>
                   getContractAndAsset_ context transaction contract blockIndex blockTime)
                _ _ _ Hin Hfail) as [e' He'].
    rewrite He' in Hcs. discriminate.
Qed.

(** X12: the classification is a substring test: a script that contains,
    anywhere, the script of a contract classified as a token is classified
    as a token too (under a hash that is not blacklisted). *)
Theorem checkIsNEP5_padding (context : Context.t E) contract contract' pre post :
  checkIsNEP5 context contract = true ->
  Contract.hash contract' ∉ Context.blacklistNEP5Hashes context ->
  Contract.script contract' = pre +:+ Contract.script contract +:+ post ->
  checkIsNEP5 context contract' = true.
Proof.
  intros Hcheck Hhash Hscript.
  apply checkIsNEP5_spec in Hcheck as [_ Hall]. apply checkIsNEP5_spec.
  split; [exact Hhash|].
  eapply Forall_impl; [exact Hall|]. intros method (a & b & Hab).
  exists (pre +:+ a), (b +:+ post). rewrite Hscript, Hab.
  now rewrite !string_append_assoc.
Qed.

End ExtractionMore.

(** * Further properties of the fee arithmetic *)

Section FeeArithmetic.

Import BigNumber.

Lemma round_half_up_scale (n d k : Z) :
  0 < d -> 0 < k -> round_half_up (n * k) (d * k) = round_half_up n d.
Proof.
  intros Hd Hk. unfold round_half_up.
  rewrite Z.sgn_mul, (Z.sgn_pos k), Z.mul_1_r by lia.
  rewrite Z.abs_mul, (Z.abs_eq k) by lia. f_equal.
  replace (2 * (Z.abs n * k) + d * k) with ((2 * Z.abs n + d) * k) by ring.
  replace (2 * (d * k)) with ((2 * d) * k) by ring.
  apply Z.div_mul_cancel_r; lia.
Qed.

Lemma round_half_up_bound (n d : Z) :
  0 < d -> 2 * Z.abs (round_half_up n d * d - n) <= d.
Proof.
  intros Hd. unfold round_half_up.
  pose proof (Z.div_mod (2 * Z.abs n + d) (2 * d) ltac:(lia)) as Hdiv.
  pose proof (Z.mod_pos_bound (2 * Z.abs n + d) (2 * d) ltac:(lia)) as Hmod.
  set (q := (2 * Z.abs n + d) / (2 * d)) in *.
  set (r := (2 * Z.abs n + d) mod (2 * d)) in *.
  destruct (Z.sgn_spec n) as [[Hn ->]|[[Hn ->]|[Hn ->]]]; nia.
Qed.

Lemma toFixed8_eqv (a b : t) : eqv a b -> toFixed8 a = toFixed8 b.
Proof.
  unfold eqv, toFixed8. intros Hab.
  rewrite <- (round_half_up_scale (coef a * 10 ^ 8) (10 ^ Z.of_nat (scale a))
                (10 ^ Z.of_nat (scale b))) by apply pow10_pos.
  rewrite <- (round_half_up_scale (coef b * 10 ^ 8) (10 ^ Z.of_nat (scale b))
                (10 ^ Z.of_nat (scale a))) by apply pow10_pos.
  f_equal; [|ring].
  replace (coef a * 10 ^ 8 * 10 ^ Z.of_nat (scale b))
    with (coef a * 10 ^ Z.of_nat (scale b) * 10 ^ 8) by ring.
  rewrite Hab. ring.
Qed.

Lemma units_at_eqv (n : nat) (a b : t) :
  (scale a <= n)%nat -> (scale b <= n)%nat ->
  (eqv a b <-> units_at n a = units_at n b).
Proof.
  intros Ha Hb. unfold eqv, units_at.
  pose proof (pow10_split n (scale a) Ha) as Hsa.
  pose proof (pow10_split n (scale b) Hb) as Hsb.
  pose proof (pow10_pos (scale a)). pose proof (pow10_pos (scale b)).
  pose proof (pow10_pos (n - scale a)). pose proof (pow10_pos (n - scale b)).
  pose proof (pow10_pos n) as Hn.
  set (pa := 10 ^ Z.of_nat (scale a)) in *. set (pb := 10 ^ Z.of_nat (scale b)) in *.
  set (qa := 10 ^ Z.of_nat (n - scale a)) in *.
  set (qb := 10 ^ Z.of_nat (n - scale b)) in *.
  set (pn := 10 ^ Z.of_nat n) in *.
  split; intros Heq.
  - apply (Z.mul_cancel_r _ _ (pa * pb)); [lia|].
    transitivity (coef a * pb * pn); [rewrite <- Hsa; ring|].
    rewrite Heq, <- Hsb. ring.
  - apply (Z.mul_cancel_r _ _ pn); [lia|].
    transitivity (coef a * qa * (pa * pb)); [rewrite <- Hsa; ring|].
    rewrite Heq, <- Hsb. ring.
Qed.

Lemma units_at_plus (n : nat) (a b : t) :
  (scale a <= n)%nat -> (scale b <= n)%nat ->
  units_at n (plus a b) = units_at n a + units_at n b.
Proof.
  intros Ha Hb. unfold units_at, plus. cbn [coef scale].
  set (s := Nat.max (scale a) (scale b)).
  assert (Hs : (s <= n)%nat) by (subst s; lia).
  rewrite Z.mul_add_distr_r, <- !Z.mul_assoc, <- !Z.pow_add_r by lia.
  f_equal; f_equal; f_equal; subst s; lia.
Qed.

Lemma scale_plus_le (n : nat) (a b : t) :
  (scale a <= n)%nat -> (scale b <= n)%nat -> (scale (plus a b) <= n)%nat.
Proof. unfold plus. cbn [scale]. lia. Qed.

Lemma max_scale_bounds {A : Type} (f : A -> t) (xs : list A) (acc : t) :
  (scale acc <= max_scale f xs acc)%nat /\
  Forall (fun x => (scale (f x) <= max_scale f xs acc)%nat) xs.
Proof.
  unfold max_scale. induction xs as [|x xs [IHacc IHxs]]; simpl.
  - split; [lia|constructor].
  - split; [lia|]. constructor; [lia|].
    eapply Forall_impl; [exact IHxs|]. simpl. intros y Hy. lia.
Qed.

(** A sum of fees in units of 10^-n, for [n] large enough. *)
Lemma units_at_fold {A : Type} (f : A -> t) (n : nat) (xs : list A) :
  Forall (fun x => (scale (f x) <= n)%nat) xs ->
  forall acc,
    (scale acc <= n)%nat ->
    (scale (fold_left (fun fee x => plus fee (f x)) xs acc) <= n)%nat /\
    units_at n (fold_left (fun fee x => plus fee (f x)) xs acc)
    = units_at n acc + foldr (fun x m => units_at n (f x) + m) 0 xs.
Proof.
  induction 1 as [|x xs Hx _ IH]; intros acc Hacc; simpl.
  - split; [exact Hacc|lia].
  - destruct (IH (plus acc (f x)) (scale_plus_le n _ _ Hacc Hx)) as [Hscale Hunits].
    split; [exact Hscale|]. rewrite Hunits, units_at_plus by assumption. lia.
Qed.

Lemma foldr_add_permutation {A : Type} (g : A -> Z) (xs ys : list A) :
  Permutation xs ys ->
  foldr (fun x m => g x + m) 0 xs = foldr (fun x m => g x + m) 0 ys.
Proof. induction 1; simpl; lia. Qed.

Lemma sum_fees_permutation (f : Tx.t -> t) (xs ys : list Tx.t) :
  Permutation xs ys -> eqv (sum_fees f xs) (sum_fees f ys).
Proof.
  intros Hperm. unfold sum_fees.
  set (n := max_scale f xs ZERO).
  destruct (max_scale_bounds f xs ZERO) as [Hacc Hxs]. fold n in Hacc, Hxs.
  assert (Hys : Forall (fun x => (scale (f x) <= n)%nat) ys)
    by (now rewrite <- Hperm).
  destruct (units_at_fold f n xs Hxs ZERO Hacc) as [Hsx Hux].
  destruct (units_at_fold f n ys Hys ZERO Hacc) as [Hsy Huy].
  apply (units_at_eqv n); [exact Hsx|exact Hsy|].
  rewrite Hux, Huy. f_equal. now apply foldr_add_permutation.
Qed.

Lemma plus_eqv_r (a b b' : t) : eqv b b' -> eqv (plus a b) (plus a b').
Proof.
  intros Hb.
  set (n := Nat.max (scale a) (Nat.max (scale b) (scale b'))).
  assert (Ha : (scale a <= n)%nat) by (subst n; lia).
  assert (Hsb : (scale b <= n)%nat) by (subst n; lia).
  assert (Hsb' : (scale b' <= n)%nat) by (subst n; lia).
  apply (units_at_eqv n); [now apply scale_plus_le|now apply scale_plus_le|].
  rewrite !units_at_plus by assumption. f_equal.
  now apply (units_at_eqv n).
Qed.

(** X13: the fee columns of the row built for a block do not depend on the
    order of its transactions: two blocks with the same transactions in
    another order get the same system fee, network fee and aggregated system
    fee. *)
Theorem fee_columns_order_independent (block block' : Block.t)
    (prevBlockModel : option BlockModel.t) :
  Permutation (Block.transactions block) (Block.transactions block') ->
  let row b := block_row b prevBlockModel (systemFee_of b)
                 (aggregatedSystemFee_of b prevBlockModel) in
  BlockModel.system_fee (row block) = BlockModel.system_fee (row block') /\
  BlockModel.network_fee (row block) = BlockModel.network_fee (row block') /\
  BlockModel.aggregated_system_fee (row block)
  = BlockModel.aggregated_system_fee (row block').
Proof.
  intros Hperm row. subst row.
  cbn [block_row BlockModel.system_fee BlockModel.network_fee
       BlockModel.aggregated_system_fee].
  pose proof (sum_fees_permutation Tx.systemFee _ _ Hperm) as Hsys.
  pose proof (sum_fees_permutation Tx.networkFee _ _ Hperm) as Hnet.
  split; [|split].
  - now apply toFixed8_eqv.
  - now apply toFixed8_eqv.
  - apply toFixed8_eqv. unfold aggregatedSystemFee_of.
    destruct prevBlockModel as [p|]; [|exact Hsys]. now apply plus_eqv_r.
Qed.

(** X14: the stored system fee of a block is the exact sum of its
    transactions' system fees rounded to eight fractional digits: it differs
    from the exact sum by at most half a unit of 10^-8, and is the exact sum
    when that has at most eight fractional digits. *)
Theorem system_fee_rounding (block : Block.t) :
  let exact := systemFee_of block in
  2 * Z.abs (fee_units block * 10 ^ Z.of_nat (scale exact) - coef exact * 10 ^ 8)
  <= 10 ^ Z.of_nat (scale exact) /\
  (fits8 exact -> eqv (of_fixed8 (fee_units block)) exact).
Proof.
  intros exact. split.
  - apply round_half_up_bound, pow10_pos.
  - apply fits8_exact.
Qed.

End FeeArithmetic.

(** * Further facts on concrete batches and blocks *)

Lemma sample_extraction_Ok :
  getAssetsAndContractsForClient decimal_toString integer_toNumber quoted quoted_array
    prefix_0x token_context sample_batch 10 1000 = Ok sample_extraction.
Proof. vm_compute. reflexivity. Qed.

Lemma extraction_without_contracts_witness :
  exists r,
    getAssetsAndContractsForClient decimal_toString integer_toNumber quoted quoted_array
      prefix_0x token_context [(register_tx, 0)] 10 1000 = Ok r /\
    length (ac_assets r) = 1%nat /\ ac_contracts r = [] /\ ac_context r = token_context.
Proof.
  eexists. split.
  - apply (extraction_without_contracts decimal_toString integer_toNumber quoted
             quoted_array prefix_0x token_context [(register_tx, 0)] 10 1000).
    repeat constructor.
  - repeat split.
Defined.

Lemma extraction_contract_rows_witness :
  map ContractModel.id (ac_contracts sample_extraction) = ["c0ffee"; "decaf"]%string /\
  map ContractModel.type (ac_contracts sample_extraction)
  = [NEP5_CONTRACT_TYPE; UNKNOWN_CONTRACT_TYPE].
Proof.
  rewrite (extraction_contract_rows decimal_toString integer_toNumber quoted quoted_array
             prefix_0x token_context sample_batch 10 1000 sample_extraction
             sample_extraction_Ok).
  split; vm_compute; reflexivity.
Defined.

Lemma extraction_asset_rows_witness :
  exists tokens,
    ac_assets sample_extraction
    = omap (fun p => getAsset decimal_toString quoted p.1 1000) sample_batch ++ tokens /\
    length tokens = 1%nat /\
    Forall (token_row 1000) tokens /\
    Forall (fresh_counters 1000) (ac_assets sample_extraction).
Proof.
  destruct (extraction_asset_rows decimal_toString integer_toNumber quoted quoted_array
              prefix_0x token_context sample_batch 10 1000 sample_extraction
              sample_extraction_Ok)
    as (tokens & Hassets & Hlen & Htokens & Hfresh).
  exists tokens. split; [exact Hassets|]. split; [|now split].
  rewrite Hlen. vm_compute. reflexivity.
Defined.

Lemma extraction_cache_witness :
  is_Some (Context.nep5Contracts (ac_context sample_extraction) !! "c0ffee"%string) /\
  Context.nep5Contracts (ac_context sample_extraction) !! "decaf"%string = None.
Proof.
  destruct (extraction_cache decimal_toString integer_toNumber quoted quoted_array
              prefix_0x token_context sample_batch 10 1000 sample_extraction
              sample_extraction_Ok)
    as (_ & Htoken & Hother & _).
  split.
  - apply (Htoken (publish_tx token_contract, token_contract)).
    unfold batch_tokens. apply list_elem_of_filter. split; [vm_compute; reflexivity|].
    vm_compute. apply list_elem_of_here.
  - rewrite Hother; [reflexivity|].
    intros p Hp. unfold batch_tokens in Hp. apply list_elem_of_filter in Hp as [Hcheck Hp].
    vm_compute in Hp.
    apply elem_of_cons in Hp as [->|Hp]; [vm_compute; discriminate|].
    apply elem_of_cons in Hp as [->|Hp]; [vm_compute in Hcheck; discriminate|].
    inversion Hp.
Defined.

Lemma extraction_failure_witness :
  exists e',
    getAssetsAndContractsForClient decimal_toString integer_toNumber quoted quoted_array
      prefix_0x nameless_context sample_batch 10 1000 = Err e'.
Proof.
  apply (extraction_failure decimal_toString integer_toNumber quoted quoted_array
           prefix_0x nameless_context sample_batch 10 1000
           (publish_tx token_contract, token_contract) (OtherError "no name")).
  - vm_compute. apply list_elem_of_here.
  - vm_compute. reflexivity.
Defined.

Lemma checkIsNEP5_padding_witness : checkIsNEP5 token_context padded_contract = true.
Proof.
  apply (checkIsNEP5_padding token_context token_contract padded_contract
           "00c56b" "6c7566").
  - vm_compute. reflexivity.
  - vm_compute. set_solver.
  - reflexivity.
Defined.

Lemma fee_columns_order_independent_witness :
  fee_units two_fee_block = fee_units two_fee_block_swapped /\
  fee_units two_fee_block = 350000000.
Proof.
  split; [|vm_compute; reflexivity].
  apply (fee_columns_order_independent two_fee_block two_fee_block_swapped None).
  apply perm_swap.
Defined.

Lemma system_fee_rounding_witness :
  fee_units dust_block = 1 /\
  2 * Z.abs (fee_units dust_block * 10 ^ 9 - 5 * 10 ^ 8) <= 10 ^ 9.
Proof.
  split; [vm_compute; reflexivity|].
  exact (proj1 (system_fee_rounding dust_block)).
Defined.
